(** * scripts/fetch_publications.py: the ORCID / CrossRef publication pipeline

    A shallow embedding of [fetch_crossref_details],
    [extract_authors_from_work_detail], [parse_orcid_works],
    [save_publications] and [main], together with the properties the
    specification states about them.

    Python values that come out of [response.json()] are modelled by the
    type [json]; dictionaries are finite maps with string keys.  Exceptions
    are explicit ([res]); the network, the file system and the clock are an
    explicit [World] whose answers may depend on everything the program did
    before (the event log, most recent event first).  [print] calls are not
    modelled, except where evaluating their argument can raise
    ([title[:60]]); the counters [idx] and [total_works] only feed those
    prints and are left out.  JSON numbers with a fractional part are
    outside the model. *)

From stdpp Require Import gmap strings list pretty.
From Stdlib Require Import ZArith String Ascii.

Local Set Warnings "-register-all".
Local Open Scope Z_scope.
Local Open Scope string_scope.

(** ** Python values *)

Inductive json : Type :=
  | JNull
  | JBool (b : bool)
  | JInt (n : Z)
  | JStr (s : string)
  | JList (l : list json)
  | JDict (d : gmap string json).

(** The exceptions this program can meet. *)
Inductive exn : Type :=
  | TypeError | AttributeError | KeyError | IndexError | ValueError | OSError.

Inductive res (A : Type) : Type :=
  | Ok (a : A)
  | Raise (e : exn).
Arguments Ok {A} a.
Arguments Raise {A} e.

#[global] Instance res_ret : MRet res := @Ok.
#[global] Instance res_bind : MBind res := λ A B f r,
  match r with Ok a => f a | Raise e => Raise e end.
#[global] Instance res_fmap : FMap res := λ A B f r,
  match r with Ok a => Ok (f a) | Raise e => Raise e end.

(** [bool(v)] *)
Definition truthy (v : json) : bool :=
  match v with
  | JNull => false
  | JBool b => b
  | JInt n => negb (Z.eqb n 0)
  | JStr s => negb (String.eqb s "")
  | JList l => match l with [] => false | _ :: _ => true end
  | JDict d => negb (Nat.eqb (size d) 0)
  end.

(** [a or b] *)
Definition py_or (a b : json) : json := if truthy a then a else b.

(** [v == s] for a string literal [s] *)
Definition is_str (s : string) (v : json) : bool :=
  match v with JStr t => String.eqb t s | _ => false end.

(** A continuation byte of a UTF-8 sequence (10xxxxxx). *)
Definition is_cont (c : ascii) : bool :=
  match c with Ascii _ _ _ _ _ _ false true => true | _ => false end.

(** Whether [s] goes on with a continuation byte. *)
Definition continues (s : string) : bool :=
  match s with String c _ => is_cont c | EmptyString => false end.

(** The characters (code points) of a UTF-8 encoded string. *)
Fixpoint chars (s : string) : list string :=
  match s with
  | EmptyString => []
  | String c s' =>
      match chars s' with
      | h :: t =>
          if continues s' then String c h :: t else String c EmptyString :: h :: t
      | [] => [String c EmptyString]
      end
  end.

(** [o.get(k, dflt)]: only dictionaries have [get]. *)
Definition dict_get (o : json) (k : string) (dflt : json) : res json :=
  match o with
  | JDict d => Ok (default dflt (d !! k))
  | _ => Raise AttributeError
  end.

(** [x[k]] for a string literal [k] *)
Definition item (x : json) (k : string) : res json :=
  match x with
  | JDict d => match d !! k with Some v => Ok v | None => Raise KeyError end
  | _ => Raise TypeError
  end.

(** [x[0]] *)
Definition item0 (x : json) : res json :=
  match x with
  | JList (a :: _) => Ok a
  | JList [] => Raise IndexError
  | JStr s => match chars s with c :: _ => Ok (JStr c) | [] => Raise IndexError end
  | JDict _ => Raise KeyError
  | _ => Raise TypeError
  end.

(** [k in x] for a string literal [k] *)
Definition contains (x : json) (k : string) : res bool :=
  match x with
  | JDict d => Ok (match d !! k with Some _ => true | None => false end)
  | JList l => Ok (existsb (is_str k) l)
  | JStr s => Ok (match String.index 0 k s with Some _ => true | None => false end)
  | _ => Raise TypeError
  end.

(** The items a [for] loop over [x] visits (a dictionary yields its keys). *)
Definition iter (x : json) : res (list json) :=
  match x with
  | JList l => Ok l
  | JStr s => Ok (JStr <$> chars s)
  | JDict d => Ok (JStr <$> (map_to_list d).*1)
  | _ => Raise TypeError
  end.

(** [len(x)] *)
Definition len (x : json) : res Z :=
  match x with
  | JList l => Ok (Z.of_nat (List.length l))
  | JStr s => Ok (Z.of_nat (List.length (chars s)))
  | JDict d => Ok (Z.of_nat (size d))
  | _ => Raise TypeError
  end.

(** [x[:60]] is evaluated inside the progress messages; only whether it
    raises matters.  (On a dictionary: TypeError, KeyError from 3.12 on.) *)
Definition slice60 (x : json) : res unit :=
  match x with
  | JStr _ | JList _ => Ok ()
  | _ => Raise TypeError
  end.

(** [mapping.get(k, dflt)] for a dictionary literal with string keys and
    values: an unhashable key raises. *)
Definition mapping_get (mapping : gmap string string) (k : json) (dflt : string)
  : res json :=
  match k with
  | JList _ | JDict _ => Raise TypeError
  | JStr s => Ok (JStr (default dflt (mapping !! s)))
  | _ => Ok (JStr dflt)
  end.

(** [sep.join(l)]: every item has to be a [str]. *)
Fixpoint join (sep : string) (l : list json) : res string :=
  match l with
  | [] => Ok ""
  | JStr s :: rest =>
      match rest with
      | [] => Ok s
      | _ :: _ => r ← join sep rest; Ok (s +:+ sep +:+ r)
      end
  | _ :: _ => Raise TypeError
  end.

(** The two builtins whose full behaviour is outside this repository:
    [str(v)] as used by f-strings, and [int(s)] on a string ([None]:
    ValueError). *)
Class Builtins := {
  str : json → string;
  int_of_str : string → option Z;
  str_JStr : ∀ s, str (JStr s) = s;
}.

(** ** The output record and the envelope *)

Record publication := {
  title : json;
  authors : json;
  journal : json;
  year : json;
  doi : json;
  url : json;
  type : json;
  citations : json;
  abstract : json;
  publisher : json;
  volume : json;
  issue : json;
  pages : json;
  references_count : json;
}.

Record envelope := {
  last_updated : string;
  count : Z;
  publications : list publication;
}.

(** ** The world *)

(** What the program does to the outside: a GET request, the pause after an
    enrichment, and the attempt to write the output file. *)
Inductive event : Type :=
  | Get (url_ : string)
  | Sleep
  | Write (path : string) (data : envelope).

(** What the outside answers, given what has happened so far.
    [http_get]: the decoded body, or [None] when the request (or its
    status check, or decoding) failed.  [file_write]: whether creating the
    directory and writing the file went through; [write_error]: what was
    raised when they did not (an OSError from [mkdir], [open] or the disk,
    a ValueError from an encoder that meets a lone surrogate).  [scholar]:
    what the (disabled) Google Scholar path would return. *)
Class World := {
  http_get : list event → string → option json;
  file_write : list event → string → bool;
  write_error : list event → string → exn;
  utcnow : list event → string;
  scholar : list event → option (list publication);
}.

(** Computations that talk to the world: state is the event log. *)
Definition IO (A : Type) : Type := list event → res A * list event.

Definition io_ret {A} (a : A) : IO A := λ log, (Ok a, log).
Definition io_bind {A B} (f : A → IO B) (m : IO A) : IO B := λ log,
  match m log with
  | (Ok a, log') => f a log'
  | (Raise e, log') => (Raise e, log')
  end.
Definition lift {A} (r : res A) : IO A := λ log, (r, log).
Definition emit (e : event) : IO unit := λ log, (Ok (), e :: log).

#[global] Instance IO_ret : MRet IO := @io_ret.
#[global] Instance IO_bind : MBind IO := @io_bind.

(** ** Configuration *)

Definition ORCID_ID : string := "0000-0001-6184-8484".
Definition GOOGLE_SCHOLAR_ID : string := "kGQy6cYAAAAJ".
Definition OUTPUT_FILE : string := "src/data/publications.json".
Definition USE_GOOGLE_SCHOLAR : bool := false.

Definition SENTINEL : string := "Authors not available".

Section Pipeline.
Context {B : Builtins} {W : World}.

(** ** fetch_crossref_details *)

(** One pass of the author loop: the names collected so far, then [author]. *)
Definition author_name (author : json) (names : list json) : res (list json) :=
  given ← dict_get author "given" (JStr "");
  family ← dict_get author "family" (JStr "");
  if truthy given && truthy family
  then Ok (names ++ [JStr (str given +:+ " " +:+ str family)])%list
  else if truthy family then Ok (names ++ [family])%list
  else Ok names.

Fixpoint author_names (l : list json) (names : list json) : res (list json) :=
  match l with
  | [] => Ok names
  | author :: rest => names' ← author_name author names; author_names rest names'
  end.

(** The value stored under ['authors']: the joined names, or [None]. *)
Definition crossref_authors (author_list : json) : res json :=
  l ← iter author_list;
  names ← author_names l [];
  match names with
  | [] => Ok JNull
  | _ :: _ => JStr <$> join ", " names
  end.

(** [result['authors']] is set whenever the message has the key 'author'. *)
Definition authors_of (message : json) (result : gmap string json)
  : res (gmap string json) :=
  has_author ← contains message "author";
  if has_author : bool
  then a ← item message "author";
       v ← crossref_authors a;
       Ok (<["authors" := v]> result)
  else Ok result.

(** [message[key].get('date-parts', [[]])[0]], then its first element. *)
Definition year_from (message : json) (key : string) (result : gmap string json)
  : res (gmap string json) :=
  published ← item message key;
  date_parts ← dict_get published "date-parts" (JList [JList []]);
  pub_date ← item0 date_parts;
  if truthy pub_date
  then (y ← item0 pub_date; Ok (<["year" := y]> result))
  else Ok result.

Definition crossref_year (message : json) (result : gmap string json)
  : res (gmap string json) :=
  p ← contains message "published";
  if p : bool then year_from message "published" result
  else
    pp ← contains message "published-print";
    if pp : bool then year_from message "published-print" result
    else
      po ← contains message "published-online";
      if po : bool then year_from message "published-online" result
      else Ok result.

(** [result[key] = message[field][0]] when the field is there and truthy. *)
Definition first_of (message : json) (field key : string) (result : gmap string json)
  : res (gmap string json) :=
  present ← contains message field;
  if present : bool
  then v ← item message field;
       if truthy v then x ← item0 v; Ok (<[key := x]> result) else Ok result
  else Ok result.

Definition crossref_type_mapping : gmap string string :=
  {[ "journal-article" := "Research Article";
     "proceedings-article" := "Conference Paper";
     "book-chapter" := "Book Chapter";
     "book" := "Book";
     "dissertation" := "Dissertation" ]}.

(** The body of the [try] block once [message] is known. *)
Definition crossref_result (message : json) : res (gmap string json) :=
  let result : gmap string json := ∅ in
  result ← authors_of message result;
  result ← first_of message "title" "title" result;
  result ← first_of message "container-title" "journal" result;
  result ← crossref_year message result;
  doi_ ← dict_get message "DOI" JNull;
  let result := <["doi" := doi_]> result in
  url0 ← dict_get message "URL" JNull;
  let result :=
    <["url" := py_or url0 (if truthy doi_
                           then JStr ("https://doi.org/" +:+ str doi_)
                           else JNull)]> result in
  pub_type ← dict_get message "type" (JStr "");
  t ← mapping_get crossref_type_mapping pub_type "Publication";
  let result := <["type" := t]> result in
  let result :=
    <["is_preprint" :=
        JBool (is_str "posted-content" pub_type || is_str "preprint" pub_type)]>
      result in
  abstract_ ← dict_get message "abstract" (JStr "");
  let result := <["abstract" := abstract_]> result in
  citations_ ← dict_get message "is-referenced-by-count" (JInt 0);
  let result := <["citations" := citations_]> result in
  publisher_ ← dict_get message "publisher" (JStr "");
  let result := <["publisher" := publisher_]> result in
  volume_ ← dict_get message "volume" (JStr "");
  let result := <["volume" := volume_]> result in
  issue_ ← dict_get message "issue" (JStr "");
  let result := <["issue" := issue_]> result in
  pages_ ← dict_get message "page" (JStr "");
  let result := <["pages" := pages_]> result in
  has_reference ← contains message "reference";
  if has_reference : bool
  then r ← item message "reference";
       n ← len r;
       Ok (<["references_count" := JInt n]> result)
  else Ok result.

(** What the [try] block returns for the decoded body [data]. *)
Definition crossref_body (data : json) : res (option (gmap string json)) :=
  has_message ← contains data "message";
  if has_message : bool
  then message ← item data "message"; Some <$> crossref_result message
  else Ok None.

Definition crossref_url (doi_ : json) : string :=
  "https://api.crossref.org/works/" +:+ str doi_.

(** [except Exception] turns every failure into [None].  The message the
    handler prints is console output and, like every [print], left out:
    what is modelled is the value that is returned once the function
    returns. *)
Definition fetch_crossref_details (doi_ : json) : IO (option (gmap string json)) :=
  λ log,
    if negb (truthy doi_) then (Ok None, log)
    else
      let r := match http_get log (crossref_url doi_) with
               | None => None
               | Some data =>
                   match crossref_body data with
                   | Ok r => r
                   | Raise _ => None
                   end
               end in
      (Ok r, Get (crossref_url doi_) :: log).

(** ** fetch_work_details, extract_authors_from_work_detail *)

Definition work_url (orcid_id : string) (put_code : json) : string :=
  "https://pub.orcid.org/v3.0/" +:+ orcid_id +:+ "/work/" +:+ str put_code.

Definition fetch_work_details (orcid_id : string) (put_code : json) : IO json :=
  λ log,
    (Ok (default JNull (http_get log (work_url orcid_id put_code))),
     Get (work_url orcid_id put_code) :: log).

Definition credit_name (contributor : json) (names : list json) : res (list json) :=
  if negb (truthy contributor) then Ok names
  else
    credit_name_data ← dict_get contributor "credit-name" JNull;
    if truthy credit_name_data
    then v ← dict_get credit_name_data "value" JNull;
         if truthy v then Ok (names ++ [v])%list else Ok names
    else Ok names.

Fixpoint credit_names (l : list json) (names : list json) : res (list json) :=
  match l with
  | [] => Ok names
  | contributor :: rest =>
      names' ← credit_name contributor names; credit_names rest names'
  end.

Definition extract_authors_from_work_detail (work_detail : json) : res json :=
  if negb (truthy work_detail) then Ok JNull
  else
    contributors_data ← dict_get work_detail "contributors" JNull;
    if negb (truthy contributors_data) then Ok JNull
    else
      contributors ← dict_get contributors_data "contributor" (JList []);
      if negb (truthy contributors) then Ok JNull
      else
        l ← iter contributors;
        names ← credit_names l [];
        match names with
        | [] => Ok JNull
        | _ :: _ => JStr <$> join ", " names
        end.

(** ** parse_orcid_works *)

Definition orcid_type_mapping : gmap string string :=
  {[ "journal-article" := "Research Article";
     "conference-paper" := "Conference Paper";
     "book" := "Book";
     "book-chapter" := "Book Chapter";
     "dissertation" := "Dissertation" ]}.

(** The first external id of type doi: its value, else [None]. *)
Fixpoint find_doi (external_ids : list json) : res json :=
  match external_ids with
  | [] => Ok JNull
  | ext_id :: rest =>
      if truthy ext_id
      then t ← dict_get ext_id "external-id-type" JNull;
           if is_str "doi" t
           then dict_get ext_id "external-id-value" JNull
           else find_doi rest
      else find_doi rest
  end.

(** [int(v)] for a truthy [v] *)
Definition int (v : json) : res Z :=
  match v with
  | JInt n => Ok n
  | JBool b => Ok (if b then 1 else 0)
  | JStr s => match int_of_str s with Some n => Ok n | None => Raise ValueError end
  | _ => Raise TypeError
  end.

(** The [merge] of CrossRef data into the record: [publication.update]. *)
Definition cr_get (crossref_data : gmap string json) (k : string) (dflt : json) : json :=
  default dflt (crossref_data !! k).

Definition merge (crossref_data : gmap string json) (p : publication) : publication :=
  {| title := py_or (cr_get crossref_data "title" JNull) (title p);
     authors := py_or (cr_get crossref_data "authors" JNull) (authors p);
     journal := py_or (cr_get crossref_data "journal" JNull)
                  (py_or (cr_get crossref_data "publisher" JNull) (journal p));
     year := py_or (cr_get crossref_data "year" JNull) (year p);
     doi := py_or (cr_get crossref_data "doi" JNull) (doi p);
     url := py_or (cr_get crossref_data "url" JNull) (url p);
     type := py_or (cr_get crossref_data "type" JNull) (type p);
     citations := cr_get crossref_data "citations" (JInt 0);
     abstract := cr_get crossref_data "abstract" (JStr "");
     publisher := cr_get crossref_data "publisher" (JStr "");
     volume := cr_get crossref_data "volume" (JStr "");
     issue := cr_get crossref_data "issue" (JStr "");
     pages := cr_get crossref_data "pages" (JStr "");
     references_count := cr_get crossref_data "references_count" (JInt 0) |}.

Definition set_authors (a : json) (p : publication) : publication :=
  {| title := title p; authors := a; journal := journal p; year := year p;
     doi := doi p; url := url p; type := type p; citations := citations p;
     abstract := abstract p; publisher := publisher p; volume := volume p;
     issue := issue p; pages := pages p;
     references_count := references_count p |}.

(** Lines 257-263: the first work summary of a group; [None] is [continue]. *)
Definition first_summary (group : json) : res (option json) :=
  work_summary_list ← dict_get group "work-summary" (JList []);
  if negb (truthy work_summary_list) then Ok None
  else
    work_summary ← item0 work_summary_list;
    if negb (truthy work_summary) then Ok None else Ok (Some work_summary).

(** What lines 266-334 leave in the local variables. *)
Record summary := {
  put_code : json;
  s_title : json;
  s_year : json;
  s_doi : json;
  s_publication : publication;
}.

(** Lines 266-334; [None] is the [continue] of a preprint. *)
Definition read_summary (work_summary : json) : res (option summary) :=
  put_code_ ← dict_get work_summary "put-code" JNull;
  t1 ← dict_get work_summary "title" (JDict ∅);
  t2 ← dict_get t1 "title" (JDict ∅);
  title_ ← dict_get t2 "value" (JStr "Untitled");
  pub_date ← dict_get work_summary "publication-date" JNull;
  year_ ← (if truthy pub_date
           then y ← dict_get pub_date "year" (JDict ∅); dict_get y "value" JNull
           else Ok JNull);
  journal_title ← dict_get work_summary "journal-title" JNull;
  journal_title ← (if truthy journal_title
                   then dict_get journal_title "value" (JStr "")
                   else Ok (JStr ""));
  pub_type ← dict_get work_summary "type" (JStr "journal-article");
  if is_str "preprint" pub_type
  then _ ← slice60 title_; Ok None
  else
    formatted_type ← mapping_get orcid_type_mapping pub_type "Publication";
    external_ids ← dict_get work_summary "external-ids" (JDict ∅);
    external_ids ← (if truthy external_ids
                    then dict_get external_ids "external-id" (JList [])
                    else Ok (JList []));
    ids ← iter external_ids;
    doi_ ← find_doi ids;
    url_data ← dict_get work_summary "url" JNull;
    url0 ← (if truthy url_data then dict_get url_data "value" JNull else Ok JNull);
    year_int ← (if truthy year_ then JInt <$> int year_ else Ok JNull);
    Ok (Some
      {| put_code := put_code_; s_title := title_; s_year := year_; s_doi := doi_;
         s_publication :=
           {| title := title_;
              authors := JStr SENTINEL;
              journal := journal_title;
              year := year_int;
              doi := doi_;
              url := py_or url0 (if truthy doi_
                                 then JStr ("https://doi.org/" +:+ str doi_)
                                 else JNull);
              type := formatted_type;
              citations := JInt 0;
              abstract := JStr "";
              publisher := JStr "";
              volume := JStr "";
              issue := JStr "";
              pages := JStr "";
              references_count := JInt 0 |} |}).

(** [if crossref_data:] — [None] and the empty dictionary are both falsy. *)
Definition nonempty (crossref_data : option (gmap string json))
  : option (gmap string json) :=
  cr ← crossref_data; if truthy (JDict cr) then Some cr else None.

(** The fallback of lines 367-371 and 377-381. *)
Definition work_detail_authors (orcid_id : string) (put_code_ : json)
    (p : publication) : IO publication :=
  if truthy put_code_
  then work_detail ← fetch_work_details orcid_id put_code_;
       authors_ ← lift (extract_authors_from_work_detail work_detail);
       mret (if truthy authors_ then set_authors authors_ p else p)
  else mret p.

(** Lines 337-382; [None] is the [continue] of a CrossRef preprint. *)
Definition enrich (orcid_id : string) (s : summary) : IO (option publication) :=
  if truthy (s_doi s)
  then _ ← lift (slice60 (s_title s));
       crossref_data ← fetch_crossref_details (s_doi s);
       match nonempty crossref_data with
       | Some cr =>
           if truthy (cr_get cr "is_preprint" (JBool false))
           then mret None
           else _ ← emit Sleep; mret (Some (merge cr (s_publication s)))
       | None =>
           p ← work_detail_authors orcid_id (put_code s) (s_publication s);
           _ ← emit Sleep;
           mret (Some p)
       end
  else p ← work_detail_authors orcid_id (put_code s) (s_publication s);
       _ ← lift (slice60 (s_title s));
       mret (Some p).

(** One turn of the loop over the groups: the publication to append, if any. *)
Definition process_group (orcid_id : string) (group : json) : IO (option publication) :=
  ws ← lift (first_summary group);
  match ws with
  | None => mret None
  | Some work_summary =>
      s ← lift (read_summary work_summary);
      match s with
      | None => mret None
      | Some s =>
          p ← enrich orcid_id s;
          match p with
          | None => mret None
          | Some p =>
              mret (if truthy (s_title s) && truthy (s_year s) then Some p else None)
          end
      end
  end.

Fixpoint parse_groups (orcid_id : string) (groups : list json)
    (publications_ : list publication) : IO (list publication) :=
  match groups with
  | [] => mret publications_
  | group :: rest =>
      p ← process_group orcid_id group;
      parse_groups orcid_id rest
        (match p with Some p => publications_ ++ [p] | None => publications_ end)%list
  end.

Definition parse_orcid_works (data : json) (orcid_id : string) : IO (list publication) :=
  if negb (truthy data) then mret []
  else
    has_group ← lift (contains data "group");
    if negb has_group then mret []
    else
      groups ← lift (item data "group");
      _ ← lift (len groups);
      l ← lift (iter groups);
      parse_groups orcid_id l [].

(** ** fetch_orcid_publications, save_publications, main *)

Definition works_url (orcid_id : string) : string :=
  "https://pub.orcid.org/v3.0/" +:+ orcid_id +:+ "/works".

Definition fetch_orcid_publications (orcid_id : string) : IO json :=
  λ log,
    (Ok (default JNull (http_get log (works_url orcid_id))),
     Get (works_url orcid_id) :: log).

Definition save_publications (publications_ : list publication) (output_file : string)
  : IO unit :=
  λ log,
    let data := {| last_updated := utcnow log;
                   count := Z.of_nat (List.length publications_);
                   publications := publications_ |} in
    (if file_write log output_file then Ok ()
     else Raise (write_error log output_file),
     Write output_file data :: log).

Definition finish (publications_ : list publication) : IO Z :=
  match publications_ with
  | [] => mret 1
  | _ :: _ => _ ← save_publications publications_ OUTPUT_FILE; mret 0
  end.

Definition main : IO Z :=
  publications_ ←
    (if USE_GOOGLE_SCHOLAR && negb (String.eqb GOOGLE_SCHOLAR_ID "YOUR_SCHOLAR_ID")
     then λ log, (Ok (scholar log), log)
     else mret None);
  match publications_ with
  | Some (p :: ps) => finish (p :: ps)
  | _ =>
      data ← fetch_orcid_publications ORCID_ID;
      if negb (truthy data) then mret 1
      else publications_ ← parse_orcid_works data ORCID_ID; finish publications_
  end.

End Pipeline.

(** * The vocabulary of the specification *)

(** The fields that both ORCID and CrossRef can supply. *)
Inductive field : Type :=
  | Title | Authors | Journal | Year | Doi | Url | Type_.

Definition field_key (f : field) : string :=
  match f with
  | Title => "title" | Authors => "authors" | Journal => "journal"
  | Year => "year" | Doi => "doi" | Url => "url" | Type_ => "type"
  end.

Definition field_of (f : field) (p : publication) : json :=
  match f with
  | Title => title p | Authors => authors p | Journal => journal p
  | Year => year p | Doi => doi p | Url => url p | Type_ => type p
  end.

(** What CrossRef supplies for a field ([None] when it does not). *)
Definition supplied (crossref_data : gmap string json) (f : field) : json :=
  default JNull (crossref_data !! field_key f).

(** Merging as the specification words it: a truthy CrossRef value
    replaces the ORCID one, anything else keeps it. *)
Definition overlay_rule (crossref_data : gmap string json) (p : publication)
    (f : field) : json :=
  if truthy (supplied crossref_data f) then supplied crossref_data f
  else field_of f p.

(** The same with the publisher standing in for a missing journal. *)
Definition overlay_rule_publisher (crossref_data : gmap string json)
    (p : publication) (f : field) : json :=
  if truthy (supplied crossref_data f) then supplied crossref_data f
  else match f with
       | Journal =>
           if truthy (default JNull (crossref_data !! "publisher"))
           then default JNull (crossref_data !! "publisher")
           else journal p
       | _ => field_of f p
       end.

(** A work-group without a usable first summary: its work-summary list is
    missing or empty, or the first entry is null. *)
Definition no_summary (group : json) : bool :=
  match group with
  | JDict g =>
      match g !! "work-summary" with
      | None | Some (JList []) | Some (JList (JNull :: _)) => true
      | _ => false
      end
  | _ => false
  end.

(** An input that lacks the key [k]: anything but a dictionary that holds
    it. *)
Definition lacks_key (data : json) (k : string) : bool :=
  match data with
  | JDict d => bool_decide (d !! k = None)
  | _ => true
  end.

(** The year as the specification words it: the first element of the
    (first) date in date-parts, when there is one ... *)
Definition first_date_part (published : json) : option json :=
  match dict_get published "date-parts" (JList [JList []]) ≫= item0 with
  | Ok pub_date =>
      if truthy pub_date
      then match item0 pub_date with Ok y => Some y | Raise _ => None end
      else None
  | Raise _ => None
  end.

(** ... of 'published' if that key is present, otherwise of
    'published-print', otherwise of 'published-online'. *)
Definition year_by_priority (message : gmap string json) : option json :=
  match message !! "published" with
  | Some published => first_date_part published
  | None =>
      match message !! "published-print" with
      | Some published_print => first_date_part published_print
      | None =>
          match message !! "published-online" with
          | Some published_online => first_date_part published_online
          | None => None
          end
      end
  end.

Section Sources.
Context {B : Builtins} {W : World}.

(** The type ORCID gives the work of a group (line 283), when the group
    has a first summary. *)
Definition orcid_type (group : json) : option json :=
  match first_summary group with
  | Ok (Some work_summary) =>
      match dict_get work_summary "type" (JStr "journal-article") with
      | Ok t => Some t
      | Raise _ => None
      end
  | _ => None
  end.

(** The message of CrossRef's answer for [doi_], when it is a dictionary. *)
Definition crossref_message (doi_ : json) (log : list event)
  : option (gmap string json) :=
  data ← http_get log (crossref_url doi_);
  match item data "message" with
  | Ok (JDict message) => Some message
  | _ => None
  end.

(** The sentence about malformed input, word for word: on [None] and on
    every input that lacks the key 'group' the empty list is returned,
    nothing is raised. *)
Definition empty_without_group (orcid_id : string) : Prop :=
  ∀ data log,
    data = JNull ∨ lacks_key data "group" = true →
    ∃ log', parse_orcid_works data orcid_id log = (Ok [], log').

(** The type CrossRef gives the work. *)
Definition crossref_type (doi_ : json) (log : list event) : option json :=
  message ← crossref_message doi_ log; message !! "type".

(** Whether the CrossRef lookup returns a result. *)
Definition lookup_succeeds (doi_ : json) (log : list event) : bool :=
  match fetch_crossref_details doi_ log with
  | (Ok (Some _), _) => true
  | _ => false
  end.

(** The year the result of the lookup holds (the outer [None]: no result). *)
Definition extracted_year (doi_ : json) (log : list event) : option (option json) :=
  match fetch_crossref_details doi_ log with
  | (Ok (Some r), _) => Some (r !! "year")
  | _ => None
  end.

(** The author names CrossRef yields for [doi_]: the non-empty join its
    result carries, when the lookup succeeds. *)
Definition crossref_author_names (doi_ : json) (log : list event) : option json :=
  match fetch_crossref_details doi_ log with
  | (Ok (Some r), _) =>
      if truthy (cr_get r "authors" JNull) then Some (cr_get r "authors" JNull)
      else None
  | _ => None
  end.

(** The credit names the ORCID work detail of [put_code_] yields. *)
Definition orcid_author_names (orcid_id : string) (put_code_ : json)
    (log : list event) : option json :=
  if truthy put_code_
  then match extract_authors_from_work_detail
               (default JNull (http_get log (work_url orcid_id put_code_))) with
       | Ok a => if truthy a then Some a else None
       | Raise _ => None
       end
  else None.

(** The sentence about the sentinel, word for word: an emitted record has
    the sentinel for authors exactly when neither CrossRef nor the ORCID
    work detail yields names. *)
Definition sentinel_iff_no_names (orcid_id : string) (group : json)
    (log : list event) : Prop :=
  ∀ work_summary s p log',
    first_summary group = Ok (Some work_summary) →
    read_summary work_summary = Ok (Some s) →
    process_group orcid_id group log = (Ok (Some p), log') →
    (authors p = JStr SENTINEL ↔
     crossref_author_names (s_doi s) log = None
     ∧ orcid_author_names orcid_id (put_code s)
         (fetch_crossref_details (s_doi s) log).2 = None).

End Sources.

(** * A concrete runtime, concrete worlds and inputs for the examples *)

(** [str] on strings, integers, booleans and [None]; the examples never
    format a container. *)
Definition str_atom (v : json) : string :=
  match v with
  | JStr s => s
  | JInt n => pretty n
  | JBool true => "True"
  | JBool false => "False"
  | JNull => "None"
  | JList _ => "[...]"
  | JDict _ => "{...}"
  end.

Definition digit_of (c : ascii) : option Z :=
  let n := Z.of_nat (nat_of_ascii c) in
  if Z.leb 48 n && Z.leb n 57 then Some (n - 48) else None.

Fixpoint digits (s : string) (acc : Z) : option Z :=
  match s with
  | EmptyString => Some acc
  | String c s' => d ← digit_of c; digits s' (10 * acc + d)
  end.

(** [int] on a plain run of ASCII digits. *)
Definition int_of_digits (s : string) : option Z :=
  match s with EmptyString => None | _ => digits s 0 end.

#[local] Instance atom_builtins : Builtins :=
  {| str := str_atom; int_of_str := int_of_digits; str_JStr := λ _, eq_refl |}.

Definition obj (l : list (string * json)) : json := JDict (list_to_map l).

(** A world that answers the listed URLs and fails every other request. *)
Definition serving (pages_ : list (string * json)) : World :=
  {| http_get := λ _ u, (list_to_map pages_ : gmap string json) !! u;
     file_write := λ _ _, true;
     write_error := λ _ _, OSError;
     utcnow := λ _, "2024-01-01T00:00:00";
     scholar := λ _, None |}.

(** A work summary with put-code 7 and title Foo, a group around it. *)
Definition summary_of (fields : list (string * json)) : json :=
  obj ([("put-code", JInt 7);
        ("title", obj [("title", obj [("value", JStr "Foo")])])] ++ fields)%list.

Definition group_of (work_summary : json) : json :=
  obj [("work-summary", JList [work_summary])].

Definition year_2020 : string * json :=
  ("publication-date", obj [("year", obj [("value", JStr "2020")])]).

Definition doi_x : string * json :=
  ("external-ids",
   obj [("external-id",
         JList [obj [("external-id-type", JStr "doi");
                     ("external-id-value", JStr "10.1/x")]])]).

Definition crossref_x : string := "https://api.crossref.org/works/10.1/x".
Definition work_7 : string :=
  "https://pub.orcid.org/v3.0/0000-0001-6184-8484/work/7".
Definition works : string :=
  "https://pub.orcid.org/v3.0/0000-0001-6184-8484/works".

Definition answer (message : list (string * json)) : json :=
  obj [("message", obj message)].

Definition dated (y : Z) : json := obj [("date-parts", JList [JList [JInt y]])].

(** The record of the work Foo, and what lines 266-334 leave for it. *)
Definition record (journal_ : string) (year_ doi_ url_ authors_ citations_ : json)
  : publication :=
  {| title := JStr "Foo"; authors := authors_; journal := JStr journal_;
     year := year_; doi := doi_; url := url_;
     type := JStr "Research Article"; citations := citations_; abstract := JStr "";
     publisher := JStr ""; volume := JStr ""; issue := JStr ""; pages := JStr "";
     references_count := JInt 0 |}.

Definition plain (journal_ : string) (year_ : json) : publication :=
  record journal_ year_ (JStr "10.1/x") (JStr "https://doi.org/10.1/x")
    (JStr SENTINEL) (JInt 0).

Definition read (year_ : json) (p : publication) : summary :=
  {| put_code := JInt 7; s_title := JStr "Foo"; s_year := year_;
     s_doi := doi p; s_publication := p |}.

Definition undated_summary : summary := read JNull (plain "" JNull).
Definition article_summary : summary := read (JStr "2020") (plain "" (JInt 2020)).

(** ORCID has the title but no publication date; CrossRef has the date. *)
Definition undated_group : json := group_of (summary_of [doi_x]).
Definition dating_world : World :=
  serving [(crossref_x, answer [("type", JStr "journal-article");
                                ("published", dated 2020)])].

(** ORCID: a journal article; CrossRef: posted content. *)
Definition article_group : json := group_of (summary_of [year_2020; doi_x]).
Definition posted_world : World :=
  serving [(crossref_x, answer [("type", JStr "posted-content")])].

(** An ORCID preprint. *)
Definition preprint_group : json :=
  group_of (summary_of [year_2020; doi_x; ("type", JStr "preprint")]).

(** CrossRef dates the work three times. *)
Definition thrice_dated_world : World :=
  serving [(crossref_x, answer [("published-online", dated 2019);
                                ("published-print", dated 2021);
                                ("published", dated 2020)])].

(** CrossRef has 'published' without a date, and a dated 'published-print'. *)
Definition half_dated_world : World :=
  serving [(crossref_x, answer [("published", obj []);
                                ("published-print", dated 2021)])].

(** CrossRef names two authors and five citations. *)
Definition authored_world : World :=
  serving [(crossref_x,
            answer [("type", JStr "journal-article");
                    ("is-referenced-by-count", JInt 5);
                    ("author",
                     JList [obj [("given", JStr "A"); ("family", JStr "B")];
                            obj [("given", JStr "C"); ("family", JStr "D")]])])].

(** CrossRef answers with an empty author list; the ORCID work detail
    carries a credit name. *)
Definition credited_world : World :=
  serving [(crossref_x, answer [("type", JStr "journal-article");
                                ("author", JList [])]);
           (work_7,
            obj [("contributors",
                  obj [("contributor",
                        JList [obj [("credit-name",
                                     obj [("value", JStr "Jane Doe")])]])])])].

(** ORCID lists one work without a DOI. *)
Definition one_work_world : World :=
  serving [(works, obj [("group", JList [group_of (summary_of [year_2020])])])].

(** * The rest of the script *)

Section Rest.
Context {B : Builtins} {W : World}.

(** ** fetch_authors_from_crossref *)

(** [details.get('authors') if details else None] *)
Definition fetch_authors_from_crossref (doi_ : json) : IO json :=
  details ← fetch_crossref_details doi_;
  mret (match nonempty details with
        | Some d => cr_get d "authors" JNull
        | None => JNull
        end).

End Rest.

(** ** fetch_google_scholar_publications *)

(** The one call into the scholarly library: the author with the
    publications filled in, or [None] when the import or one of the two
    calls raises. *)
Class Scholarly := {
  fill_author : string → option json;
}.

Module Scholar.

(** The dictionary the Google Scholar path builds (lines 51-60). *)
Record publication := {
  title : json;
  authors : json;
  journal : json;
  year : json;
  doi : json;
  url : json;
  type : json;
  citations : json;
}.

Section Fetch.
Context {B : Builtins} {S : Scholarly}.

(** Lines 36-60: the record of one entry of [author['publications']]. *)
Definition read_publication (pub : json) : res publication :=
  bib ← dict_get pub "bib" (JDict ∅);
  authors0 ← dict_get bib "author" (JStr SENTINEL);
  authors_ ← match authors0 with
             | JList l => JStr <$> join ", " l
             | _ => Ok authors0
             end;
  year0 ← dict_get bib "pub_year" JNull;
  let year_ := if truthy year0
               then match int year0 with Ok n => JInt n | Raise _ => JNull end
               else year0 in
  title_ ← dict_get bib "title" (JStr "Untitled");
  journal_ ← dict_get bib "venue" (JStr "");
  url_ ← dict_get pub "author_pub_id" (JStr "");
  citations_ ← dict_get pub "num_citations" (JInt 0);
  Ok {| title := title_; authors := authors_; journal := journal_;
        year := year_; doi := JNull; url := url_;
        type := JStr "Research Article"; citations := citations_ |}.

(** The loop of lines 34-67. *)
Fixpoint read_publications (pubs : list json) (publications_ : list publication)
  : res (list publication) :=
  match pubs with
  | [] => Ok publications_
  | pub :: rest =>
      p ← read_publication pub;
      read_publications rest
        (if truthy (title p) && truthy (year p)
         then publications_ ++ [p] else publications_)%list
  end.

(** The [try] block once the author is there. *)
Definition scholar_body (author : json) : res (list publication) :=
  listed ← dict_get author "publications" (JList []);
  _ ← len listed;
  pubs ← item author "publications";
  l ← iter pubs;
  read_publications l [].

(** Both [except] clauses return [None]. *)
Definition fetch_google_scholar_publications (scholar_id : string)
  : option (list publication) :=
  author ← fill_author scholar_id;
  match scholar_body author with
  | Ok l => Some l
  | Raise _ => None
  end.

End Fetch.
End Scholar.

(** * More vocabulary *)

(** The six type labels of the output. *)
Definition labels : list string :=
  ["Research Article"; "Conference Paper"; "Book Chapter"; "Book";
   "Dissertation"; "Publication"].

Definition is_label (v : json) : bool :=
  match v with
  | JStr t => bool_decide (t ∈ labels)
  | _ => false
  end.

(** A non-empty string. *)
Definition is_text (v : json) : bool :=
  match v with
  | JStr s => negb (String.eqb s "")
  | _ => false
  end.

Section Observations.
Context {B : Builtins} {W : World}.

(** What the result of the CrossRef lookup holds under [k] (the outer
    [None]: the lookup returns no result). *)
Definition result_field (doi_ : json) (log : list event) (k : string)
  : option (option json) :=
  match fetch_crossref_details doi_ log with
  | (Ok (Some r), _) => Some (r !! k)
  | _ => None
  end.

End Observations.

(** The name a CrossRef author or an ORCID credit holds under [k]: a
    string, the empty string when the key is missing or null; [None] for
    anything else. *)
Definition text_at (d : gmap string json) (k : string) : option string :=
  match d !! k with
  | None | Some JNull => Some ""
  | Some (JStr s) => Some s
  | Some _ => None
  end.

(** The given and the family name of a well-formed CrossRef author. *)
Definition person (author : json) : option (string * string) :=
  match author with
  | JDict d => g ← text_at d "given"; f ← text_at d "family"; Some (g, f)
  | _ => None
  end.

(** How a person is displayed; nobody without a family name is. *)
Definition display_name (gf : string * string) : option string :=
  if String.eqb gf.2 "" then None
  else if String.eqb gf.1 "" then Some gf.2
  else Some (gf.1 +:+ " " +:+ gf.2).

(** The credit name of a well-formed ORCID contributor, if it has one. *)
Definition credit (contributor : json) : option (option string) :=
  match contributor with
  | JNull => Some None
  | JDict d =>
      match d !! "credit-name" with
      | None | Some JNull => Some None
      | Some (JDict c) =>
          s ← text_at c "value"; Some (if String.eqb s "" then None else Some s)
      | Some _ => None
      end
  | _ => None
  end.

(** The value the names end up as: [None] when there are none. *)
Definition joined (names : list string) : json :=
  match names with
  | [] => JNull
  | _ :: _ => JStr (String.concat ", " names)
  end.

(** An external id the search for the DOI passes over: a falsy one, or a
    dictionary whose type is not doi. *)
Definition other_id (ext_id : json) : bool :=
  negb (truthy ext_id)
  || match ext_id with
     | JDict d => negb (is_str "doi" (default JNull (d !! "external-id-type")))
     | _ => false
     end.

(** The events of one turn of the loop, most recent first: nothing, one
    request, two requests, and a pause after one or two requests. *)
Definition turn_shape (evs : list event) : bool :=
  match evs with
  | [] | [Get _] | [Get _; Get _] | [Sleep; Get _] | [Sleep; Get _; Get _] => true
  | _ => false
  end.

Definition is_get (e : event) : bool :=
  match e with Get _ => true | _ => false end.

Definition is_write (e : event) : bool :=
  match e with Write _ _ => true | _ => false end.

(** The number of requests among the events. *)
Definition requests (evs : list event) : nat :=
  List.length (List.filter is_get evs).

(** * More worlds and inputs for the examples *)

(** CrossRef knows the DOI and nothing else. *)
Definition bare_message : list (string * json) := [("DOI", JStr "10.1/X")].
Definition bare_world : World := serving [(crossref_x, answer bare_message)].

(** The message of [authored_world]. *)
Definition authored_message : list (string * json) :=
  [("type", JStr "journal-article");
   ("is-referenced-by-count", JInt 5);
   ("author",
    JList [obj [("given", JStr "A"); ("family", JStr "B")];
           obj [("given", JStr "C"); ("family", JStr "D")]])].

(** What the turn for [article_group] keeps in [authored_world]. *)
Definition authored_record : publication :=
  record "" (JInt 2020) (JStr "10.1/x") (JStr "https://doi.org/10.1/x")
    (JStr "A B, C D") (JInt 5).

(** Three CrossRef authors: with both names, without a given name, without
    a family name. *)
Definition three_authors : list json :=
  [obj [("given", JStr "A"); ("family", JStr "B")];
   obj [("family", JStr "D")];
   obj [("given", JStr "C"); ("family", JNull)]].

(** Contributors of an ORCID work detail: two with a credit name, a null
    one and one without. *)
Definition four_contributors : list json :=
  [obj [("credit-name", obj [("value", JStr "Jane Doe")])];
   JNull;
   obj [("credit-name", JNull)];
   obj [("credit-name", obj [("value", JStr "Bo")])]].

Definition contributors_of (l : list json) : gmap string json :=
  list_to_map [("contributor", JList l)].

Definition detail_of (l : list json) : gmap string json :=
  list_to_map [("contributors", JDict (contributors_of l))].

(** External ids: a null one, an ISSN, a DOI without a value, a DOI. *)
Definition valueless_doi : gmap string json :=
  list_to_map [("external-id-type", JStr "doi")].

Definition ids_before : list json :=
  [JNull; obj [("external-id-type", JStr "issn");
               ("external-id-value", JStr "1234-5678")]].

Definition ids_after : list json :=
  [obj [("external-id-type", JStr "doi"); ("external-id-value", JStr "10.1/x")]].

(** A work without a DOI, and what is kept of it when nothing answers. *)
Definition plain_group : json := group_of (summary_of [year_2020]).

Definition plain_record : publication :=
  record "" (JInt 2020) JNull JNull (JStr SENTINEL) (JInt 0).

Definition plain_summary : summary := read (JStr "2020") plain_record.

(** A work whose year is no number. *)
Definition undatable_group : json :=
  group_of (summary_of
    [("publication-date", obj [("year", obj [("value", JStr "n.d.")])])]).

(** ORCID answers the works request with an empty object. *)
Definition empty_works_world : World := serving [(works, obj [])].

(** The same answers, and a disk that refuses every write. *)
Definition read_only (W : World) : World :=
  {| http_get := @http_get W;
     file_write := λ _ _, false;
     write_error := λ _ _, OSError;
     utcnow := @utcnow W;
     scholar := @scholar W |}.

(** A scholarly library that returns [author] for every id. *)
Definition scholarly_of (author : option json) : Scholarly :=
  {| fill_author := λ _, author |}.

Definition scholar_pub (year_ : json) : json :=
  obj [("bib", obj [("title", JStr "Foo"); ("pub_year", year_);
                    ("author", JStr "A B and C D")]);
       ("num_citations", JInt 3)].

Definition scholar_record : Scholar.publication :=
  {| Scholar.title := JStr "Foo"; Scholar.authors := JStr "A B and C D";
     Scholar.journal := JStr ""; Scholar.year := JInt 2019;
     Scholar.doi := JNull; Scholar.url := JStr "";
     Scholar.type := JStr "Research Article"; Scholar.citations := JInt 3 |}.

Definition two_pubs_author : json :=
  obj [("publications", JList [scholar_pub (JStr "2019"); scholar_pub (JStr "n.d.")])].

(** * Properties *)

Section Properties.
Context {B : Builtins} {W : World}.

(** ** Running the two monads *)

Lemma res_bind_Ok {A C} (m : res A) (f : A → res C) (c : C) :
  m ≫= f = Ok c → ∃ a, m = Ok a ∧ f a = Ok c.
Proof. destruct m as [a|e]; [eauto | discriminate]. Qed.

Ltac binds H := repeat (apply res_bind_Ok in H as (? & ? & H)).

Lemma io_bind_lift {A C} (r : res A) (f : A → IO C) (log : list event) :
  (lift r ≫= f) log = match r with Ok a => f a log | Raise e => (Raise e, log) end.
Proof. by destruct r. Qed.

Lemma io_bind_run {A C} (m : IO A) (f : A → IO C) (log : list event) :
  (m ≫= f) log =
  match m log with (Ok a, log') => f a log' | (Raise e, log') => (Raise e, log') end.
Proof. reflexivity. Qed.

Lemma io_ret_run {A} (a : A) (log : list event) : (mret a : IO A) log = (Ok a, log).
Proof. reflexivity. Qed.

(** ** The merge *)

Lemma py_or_absorb a b : py_or a (py_or a b) = py_or a b.
Proof. unfold py_or. by destruct (truthy a) eqn:Ha; rewrite ?Ha. Qed.

Lemma py_or_absorb2 a b c :
  py_or a (py_or b (py_or a (py_or b c))) = py_or a (py_or b c).
Proof.
  unfold py_or.
  destruct (truthy a) eqn:Ha; [done|].
  destruct (truthy b) eqn:Hb; by rewrite ?Ha, ?Hb.
Qed.

(** C5. Overlaying the same CrossRef result a second time changes nothing:
    [merge] is idempotent in the record, for every CrossRef result. *)
Theorem merge_idempotent (crossref_data : gmap string json) (p : publication) :
  merge crossref_data (merge crossref_data p) = merge crossref_data p.
Proof.
  unfold merge; cbn [title authors journal year doi url type].
  by rewrite !py_or_absorb, py_or_absorb2.
Qed.

(** C2 (as amended). For each field both sources can supply, the merged
    value is CrossRef's when that is truthy; otherwise it is the ORCID
    value, except that a truthy CrossRef publisher stands in for a missing
    journal before the ORCID journal is kept. *)
Theorem merge_field (crossref_data : gmap string json) (p : publication) (f : field) :
  field_of f (merge crossref_data p) = overlay_rule_publisher crossref_data p f.
Proof.
  unfold overlay_rule_publisher, supplied.
  destruct f; cbn [field_of field_key merge title authors journal year doi url type];
    unfold py_or, cr_get; reflexivity.
Qed.

(** ** Persistence and exit codes *)

(** C7. The envelope handed to the file has [count] equal to the number of
    its publications, which are the input list, in order; this holds
    whether or not the write goes through. *)
Theorem save_publications_envelope (pubs : list publication) (output_file : string)
    (log : list event) :
  ∃ r data,
    save_publications pubs output_file log = (r, Write output_file data :: log)
    ∧ count data = Z.of_nat (List.length (publications data))
    ∧ publications data = pubs.
Proof. unfold save_publications. eexists _, _. split; [reflexivity|]. done. Qed.

Lemma finish_run (pubs : list publication) (log : list event) :
  finish pubs log =
  match pubs with
  | [] => (Ok 1, log)
  | _ :: _ =>
      (if file_write log OUTPUT_FILE then Ok 0
       else Raise (write_error log OUTPUT_FILE),
       Write OUTPUT_FILE {| last_updated := utcnow log;
                            count := Z.of_nat (List.length pubs);
                            publications := pubs |} :: log)
  end.
Proof.
  destruct pubs as [|p ps]; [done|].
  unfold finish. rewrite io_bind_run. unfold save_publications.
  by destruct (file_write log OUTPUT_FILE).
Qed.

Lemma main_run (log : list event) :
  main log =
  let data := default JNull (http_get log (works_url ORCID_ID)) in
  let log1 := Get (works_url ORCID_ID) :: log in
  if truthy data
  then match parse_orcid_works data ORCID_ID log1 with
       | (Ok pubs, log2) => finish pubs log2
       | (Raise e, log2) => (Raise e, log2)
       end
  else (Ok 1, log1).
Proof.
  unfold main. cbn [USE_GOOGLE_SCHOLAR andb]. rewrite io_bind_run, io_ret_run.
  rewrite io_bind_run. unfold fetch_orcid_publications. cbn zeta.
  destruct (truthy _); [|done]. cbn [negb]. by rewrite io_bind_run.
Qed.

(** C8. [main] returns 0 exactly when the works fetch gives data from which
    parsing produces at least one publication and these are saved; the log
    then ends with that write.  It returns 1 when the works fetch fails,
    in which case the request is the only thing that happened (no write is
    attempted), and it returns 1 when parsing yields no publication. *)
Theorem main_exit_code (log : list event) :
  let data := default JNull (http_get log (works_url ORCID_ID)) in
  let log1 := Get (works_url ORCID_ID) :: log in
  (∀ log', main log = (Ok 0, log') ↔
     ∃ p ps log2,
       truthy data = true
       ∧ parse_orcid_works data ORCID_ID log1 = (Ok (p :: ps), log2)
       ∧ file_write log2 OUTPUT_FILE = true
       ∧ log' = Write OUTPUT_FILE
                  {| last_updated := utcnow log2;
                     count := Z.of_nat (List.length (p :: ps));
                     publications := p :: ps |} :: log2)
  ∧ (http_get log (works_url ORCID_ID) = None → main log = (Ok 1, log1))
  ∧ (∀ log2, truthy data = true →
       parse_orcid_works data ORCID_ID log1 = (Ok [], log2) →
       main log = (Ok 1, log2)).
Proof.
  intros data log1. rewrite main_run. fold data log1. cbn zeta.
  split; [|split].
  - intros log'. split.
    + destruct (truthy data); [|discriminate].
      destruct (parse_orcid_works data ORCID_ID log1) as [[pubs|e] log2];
        [|discriminate].
      rewrite finish_run. destruct pubs as [|p ps]; [discriminate|].
      destruct (file_write log2 OUTPUT_FILE) eqn:Hw; [|discriminate].
      intros [= <-]. by exists p, ps, log2.
    + intros (p & ps & log2 & -> & -> & Hw & ->).
      by rewrite finish_run, Hw.
  - intros Hget. subst data. by rewrite Hget.
  - intros log2 -> ->. by rewrite finish_run.
Qed.

(** ** Malformed input *)

Lemma first_summary_none (group : json) :
  no_summary group = true → first_summary group = Ok None.
Proof.
  destruct group as [| | | | |g]; try discriminate. cbn.
  destruct (g !! "work-summary") as [[| | | |[|[] ?]|]|]; by try discriminate.
Qed.

Lemma process_group_no_summary (orcid_id : string) (group : json) (log : list event) :
  no_summary group = true → process_group orcid_id group log = (Ok None, log).
Proof.
  intros Hg. unfold process_group.
  by rewrite io_bind_lift, (first_summary_none _ Hg).
Qed.

(** C10 (as amended). [parse_orcid_works] returns the empty list, without
    raising and without any request, on [None] (as on every falsy value)
    and on a dictionary without the key 'group' (as on every list or
    string in which 'group' is not found).  A truthy input of another
    kind, a number other than 0 or [True], does not get that far: the
    membership test raises TypeError.  A group whose work-summary list is
    empty (or missing) or whose first summary is null is passed over: it
    yields no publication, raises nothing, and the loop goes on with the
    next group. *)
Theorem parse_orcid_works_malformed :
  (∀ orcid_id log, parse_orcid_works JNull orcid_id log = (Ok [], log))
  ∧ (∀ (d : gmap string json) orcid_id log,
       d !! "group" = None → parse_orcid_works (JDict d) orcid_id log = (Ok [], log))
  ∧ (∀ data orcid_id log,
       truthy data = false ∨ contains data "group" = Ok false →
       parse_orcid_works data orcid_id log = (Ok [], log))
  ∧ (∀ n orcid_id log,
       n ≠ 0 → parse_orcid_works (JInt n) orcid_id log = (Raise TypeError, log))
  ∧ (∀ orcid_id log,
       parse_orcid_works (JBool true) orcid_id log = (Raise TypeError, log))
  ∧ (∀ group orcid_id log,
       no_summary group = true → process_group orcid_id group log = (Ok None, log))
  ∧ (∀ group rest pubs orcid_id log,
       no_summary group = true →
       parse_groups orcid_id (group :: rest) pubs log
       = parse_groups orcid_id rest pubs log).
Proof.
  assert (Hmiss : ∀ data orcid_id log,
             truthy data = false ∨ contains data "group" = Ok false →
             parse_orcid_works data orcid_id log = (Ok [], log)).
  { intros data orcid_id log Hd. unfold parse_orcid_works.
    destruct (truthy data); [|done]. cbn [negb].
    destruct Hd as [Hd | Hd]; [discriminate|]. by rewrite io_bind_lift, Hd. }
  split; [done|]. split; [|split; [exact Hmiss|split; [|split; [done|split]]]].
  - intros d orcid_id log Hd. apply Hmiss. right. cbn [contains]. by rewrite Hd.
  - intros n orcid_id log Hn. unfold parse_orcid_works. cbn [truthy].
    by destruct (Z.eqb_spec n 0).
  - intros. by apply process_group_no_summary.
  - intros group rest pubs orcid_id log Hg. cbn [parse_groups].
    by rewrite io_bind_run, (process_group_no_summary _ _ _ Hg).
Qed.

(** ** ORCID preprints *)

Lemma read_summary_preprint (work_summary : json) :
  dict_get work_summary "type" (JStr "journal-article") = Ok (JStr "preprint") →
  read_summary work_summary = Ok None ∨ ∃ e, read_summary work_summary = Raise e.
Proof.
  intros Ht. unfold read_summary.
  repeat match goal with
         | |- context [mbind _ ?m] =>
             lazymatch m with
             | dict_get work_summary "type" _ => fail
             | _ => destruct m as [?|?] eqn:?; cbn [mbind res_bind]; [|by eauto]
             end
         end.
  rewrite Ht. cbn [mbind res_bind is_str String.eqb Ascii.eqb Bool.eqb].
  destruct (slice60 _); cbn [mbind res_bind]; eauto.
Qed.

Lemma process_group_preprint (orcid_id : string) (group : json) (log : list event) :
  orcid_type group = Some (JStr "preprint") →
  process_group orcid_id group log = (Ok None, log)
  ∨ ∃ e, process_group orcid_id group log = (Raise e, log).
Proof.
  unfold orcid_type, process_group. intros Ht.
  rewrite io_bind_lift.
  destruct (first_summary group) as [[ws|]|]; try discriminate.
  destruct (dict_get ws "type" _) as [t|] eqn:Hty; try discriminate.
  injection Ht as ->.
  rewrite io_bind_lift.
  destruct (read_summary_preprint ws Hty) as [-> | [e ->]]; eauto.
Qed.

(** C3. A group whose summary type is [preprint] yields no publication and
    causes no request at all (the log is untouched, so neither CrossRef nor
    the work detail is asked), whatever the world would answer: the turn
    ends in the [continue], or in an exception raised by a malformed
    summary.  For the loop this means: the group is passed over. *)
Theorem preprint_skipped (orcid_id : string) (group : json) (log : list event) :
  orcid_type group = Some (JStr "preprint") →
  (process_group orcid_id group log = (Ok None, log)
   ∨ ∃ e, process_group orcid_id group log = (Raise e, log))
  ∧ ∀ rest pubs,
      parse_groups orcid_id (group :: rest) pubs log
      = parse_groups orcid_id rest pubs log
      ∨ ∃ e, parse_groups orcid_id (group :: rest) pubs log = (Raise e, log).
Proof.
  intros Ht. pose proof (process_group_preprint orcid_id group log Ht) as Hp.
  split; [exact Hp|]. intros rest pubs. cbn [parse_groups].
  rewrite io_bind_run. destruct Hp as [-> | [e ->]]; eauto.
Qed.

(** ** What a CrossRef result holds *)

Lemma year_from_lookup message key result r :
  year_from message key result = Ok r → ∀ k, k ≠ "year" → r !! k = result !! k.
Proof.
  unfold year_from. intros Hr k Hk. binds Hr.
  destruct (truthy _); [binds Hr|]; injection Hr as <-; [|done].
  by rewrite lookup_insert_ne.
Qed.

Lemma year_from_year d key published result r :
  d !! key = Some published →
  result !! "year" = None →
  year_from (JDict d) key result = Ok r → r !! "year" = first_date_part published.
Proof.
  unfold year_from, first_date_part. intros Hk Hnone Hr. cbn [item] in Hr.
  rewrite Hk in Hr. cbn [mbind res_bind] in Hr.
  apply res_bind_Ok in Hr as (date_parts & Hdp & Hr).
  apply res_bind_Ok in Hr as (pub_date & Hpd & Hr).
  rewrite Hdp. cbn [mbind res_bind]. rewrite Hpd.
  destruct (truthy pub_date); [|by injection Hr as <-].
  apply res_bind_Ok in Hr as (y & Hy & Hr). injection Hr as <-.
  rewrite Hy. by rewrite lookup_insert_eq.
Qed.

Lemma crossref_year_lookup message result r :
  crossref_year message result = Ok r → ∀ k, k ≠ "year" → r !! k = result !! k.
Proof.
  unfold crossref_year. intros Hr.
  apply res_bind_Ok in Hr as ([] & _ & Hr); [by eapply year_from_lookup|].
  apply res_bind_Ok in Hr as ([] & _ & Hr); [by eapply year_from_lookup|].
  apply res_bind_Ok in Hr as ([] & _ & Hr); [by eapply year_from_lookup|].
  by injection Hr as <-.
Qed.

Lemma crossref_year_year d result r :
  result !! "year" = None →
  crossref_year (JDict d) result = Ok r → r !! "year" = year_by_priority d.
Proof.
  unfold crossref_year, year_by_priority. intros Hnone. cbn [contains mbind res_bind].
  destruct (d !! "published") eqn:H1; [by apply year_from_year|].
  destruct (d !! "published-print") eqn:H2; [by apply year_from_year|].
  destruct (d !! "published-online") eqn:H3; [by apply year_from_year|].
  by intros [= <-].
Qed.

Lemma first_of_lookup message field key result r :
  first_of message field key result = Ok r → ∀ k, k ≠ key → r !! k = result !! k.
Proof.
  unfold first_of. intros Hr k Hk.
  apply res_bind_Ok in Hr as ([] & _ & Hr); [|by injection Hr as <-].
  apply res_bind_Ok in Hr as (v & _ & Hr).
  destruct (truthy v); [binds Hr|]; injection Hr as <-; [|done].
  by rewrite lookup_insert_ne.
Qed.

Lemma authors_of_lookup message result r :
  authors_of message result = Ok r → ∀ k, k ≠ "authors" → r !! k = result !! k.
Proof.
  unfold authors_of. intros Hr k Hk.
  apply res_bind_Ok in Hr as ([] & _ & Hr); [|by injection Hr as <-].
  binds Hr. injection Hr as <-. by rewrite lookup_insert_ne.
Qed.

Lemma crossref_result_dict message r :
  crossref_result message = Ok r → ∃ d, message = JDict d.
Proof.
  unfold crossref_result. intros Hr. binds Hr.
  match goal with
  | H : dict_get message _ _ = _ |- _ => destruct message; try discriminate H
  end.
  eauto.
Qed.

Lemma crossref_result_inv d r :
  crossref_result (JDict d) = Ok r →
  ∃ r1, authors_of (JDict d) ∅ = Ok r1
    ∧ r !! "authors" = r1 !! "authors"
    ∧ r !! "year" = year_by_priority d
    ∧ r !! "is_preprint" =
        Some (JBool (is_str "posted-content" (default (JStr "") (d !! "type"))
                     || is_str "preprint" (default (JStr "") (d !! "type"))))
    ∧ truthy (JDict r) = true.
Proof.
  unfold crossref_result. intros Hr.
  apply res_bind_Ok in Hr as (r1 & Hr1 & Hr).
  apply res_bind_Ok in Hr as (r2 & Hr2 & Hr).
  apply res_bind_Ok in Hr as (r3 & Hr3 & Hr).
  apply res_bind_Ok in Hr as (r4 & Hr4 & Hr).
  cbn [dict_get mbind res_bind] in Hr.
  apply res_bind_Ok in Hr as (t & Ht & Hr).
  exists r1. split; [done|].
  assert (Hy : r4 !! "year" = year_by_priority d).
  { apply (crossref_year_year d r3); [|done].
    rewrite (first_of_lookup _ _ _ _ _ Hr3), (first_of_lookup _ _ _ _ _ Hr2),
      (authors_of_lookup _ _ _ Hr1) by done. apply lookup_empty. }
  assert (Ha : r4 !! "authors" = r1 !! "authors").
  { by rewrite (crossref_year_lookup _ _ _ Hr4), (first_of_lookup _ _ _ _ _ Hr3),
      (first_of_lookup _ _ _ _ _ Hr2) by done. }
  apply res_bind_Ok in Hr as ([] & _ & Hr); binds Hr; injection Hr as <-.
  all: repeat split;
    [ by rewrite !lookup_insert_ne by done
    | by rewrite !lookup_insert_ne by done
    | rewrite !lookup_insert_ne by done; apply lookup_insert_eq
    | cbn [truthy]; apply negb_true_iff, Nat.eqb_neq, map_size_non_empty_iff,
        insert_non_empty ].
Qed.

Lemma crossref_body_inv data r :
  crossref_body data = Ok (Some r) →
  ∃ d, item data "message" = Ok (JDict d) ∧ crossref_result (JDict d) = Ok r.
Proof.
  unfold crossref_body. intros Hr.
  apply res_bind_Ok in Hr as ([] & _ & Hr); [|discriminate].
  apply res_bind_Ok in Hr as (message & Hm & Hr).
  destruct (crossref_result message) as [r'|] eqn:Hres; [|discriminate].
  injection Hr as ->.
  destruct (crossref_result_dict _ _ Hres) as [d ->]. eauto.
Qed.

Lemma fetch_crossref_details_inv doi_ log log' r :
  fetch_crossref_details doi_ log = (Ok (Some r), log') →
  truthy doi_ = true ∧ log' = Get (crossref_url doi_) :: log
  ∧ ∃ data, http_get log (crossref_url doi_) = Some data
            ∧ crossref_body data = Ok (Some r).
Proof.
  unfold fetch_crossref_details.
  destruct (truthy doi_); cbn [negb]; [|discriminate].
  destruct (http_get log (crossref_url doi_)) as [data|]; [|discriminate].
  destruct (crossref_body data) as [r'|] eqn:Hb; [|discriminate].
  intros [= -> <-]. eauto.
Qed.

(** C6. When the lookup returns a result, its year is the one the priority
    order gives for the message: the first element of the date of
    'published' if that key is present, otherwise of 'published-print',
    otherwise of 'published-online'; no year when the chosen key carries no
    date or none of the keys is present.  A later key is never looked at
    when an earlier one is present. *)
Theorem crossref_year_priority (doi_ : json) (log : list event) (y : option json) :
  extracted_year doi_ log = Some y →
  year_by_priority <$> crossref_message doi_ log = Some y.
Proof.
  unfold extracted_year, crossref_message.
  destruct (fetch_crossref_details doi_ log) as [[[r|]|] log'] eqn:Hf;
    try discriminate.
  intros [= <-].
  apply fetch_crossref_details_inv in Hf as (_ & _ & data & -> & Hbody).
  apply crossref_body_inv in Hbody as (d & Hitem & Hres).
  apply crossref_result_inv in Hres as (_ & _ & _ & Hy & _).
  cbn [mbind option_bind]. rewrite Hitem. cbn [fmap option_fmap option_map].
  by rewrite Hy.
Qed.

(** ** CrossRef preprints *)

(** C4. When the work has a DOI, the CrossRef lookup succeeds and CrossRef
    types the work posted-content or preprint, the turn yields no
    publication, although ORCID did not call it a preprint; with a title
    that can be printed the turn ends in the [continue], right after the
    CrossRef request. *)
Theorem crossref_preprint_skipped (orcid_id : string) (group work_summary : json)
    (s : summary) (log : list event) (t : string) :
  first_summary group = Ok (Some work_summary) →
  read_summary work_summary = Ok (Some s) →
  lookup_succeeds (s_doi s) log = true →
  crossref_type (s_doi s) log = Some (JStr t) →
  t = "posted-content" ∨ t = "preprint" →
  (∀ p log', process_group orcid_id group log ≠ (Ok (Some p), log'))
  ∧ (slice60 (s_title s) = Ok () →
     process_group orcid_id group log
     = (Ok None, Get (crossref_url (s_doi s)) :: log)).
Proof.
  intros Hg Hs Hlook Hty Ht. unfold lookup_succeeds in Hlook.
  destruct (fetch_crossref_details (s_doi s) log) as [[[r|]|] log1] eqn:Hf;
    try discriminate.
  pose proof Hf as Hf'.
  apply fetch_crossref_details_inv in Hf' as (Hdoi & -> & data & Hget & Hbody).
  apply crossref_body_inv in Hbody as (d & Hitem & Hres).
  apply crossref_result_inv in Hres as (_ & _ & _ & _ & Hpre & Hne).
  unfold crossref_type, crossref_message in Hty. rewrite Hget in Hty.
  cbn [mbind option_bind] in Hty. rewrite Hitem in Hty.
  cbn [mbind option_bind] in Hty. rewrite Hty in Hpre.
  assert (Hflag : cr_get r "is_preprint" (JBool false) = JBool true).
  { unfold cr_get. rewrite Hpre. by destruct Ht as [-> | ->]. }
  assert (Hrun : process_group orcid_id group log =
                 match slice60 (s_title s) with
                 | Ok _ => (Ok None, Get (crossref_url (s_doi s)) :: log)
                 | Raise e => (Raise e, log)
                 end).
  { unfold process_group. rewrite io_bind_lift, Hg, io_bind_lift, Hs, io_bind_run.
    unfold enrich. rewrite Hdoi, io_bind_lift.
    destruct (slice60 (s_title s)); [|done].
    rewrite io_bind_run, Hf. cbn [nonempty mbind option_bind]. rewrite Hne, Hflag.
    done. }
  rewrite Hrun. split; [|by intros ->].
  intros p log'. by destruct (slice60 (s_title s)).
Qed.

(** ** Retention *)

(** What the last test of a turn reads: the title and the year as ORCID
    gave them (the local variables), not the fields of the merged record. *)
Lemma process_group_retains (orcid_id : string) (group work_summary : json)
    (s : summary) (p : publication) (log log' : list event) :
  first_summary group = Ok (Some work_summary) →
  read_summary work_summary = Ok (Some s) →
  process_group orcid_id group log = (Ok (Some p), log') →
  truthy (s_title s) = true ∧ truthy (s_year s) = true.
Proof.
  intros Hg Hs. unfold process_group.
  rewrite io_bind_lift, Hg, io_bind_lift, Hs, io_bind_run.
  destruct (enrich orcid_id s log) as [[[p0|]|] l]; try discriminate.
  rewrite io_ret_run.
  destruct (truthy (s_title s)), (truthy (s_year s)); by try discriminate.
Qed.

(** ** Authors *)

Lemma fetch_crossref_details_total doi_ log :
  ∃ o log1, fetch_crossref_details doi_ log = (Ok o, log1)
            ∧ (o = None ∨ ∃ r, o = Some r ∧ truthy (JDict r) = true).
Proof.
  destruct (fetch_crossref_details doi_ log) as [[[r|]|e] log1] eqn:Hf.
  - exists (Some r), log1. split; [done|right]. exists r. split; [done|].
    apply fetch_crossref_details_inv in Hf as (_ & _ & data & _ & Hbody).
    apply crossref_body_inv in Hbody as (d & _ & Hres).
    by apply crossref_result_inv in Hres as (_ & _ & _ & _ & _ & Hne).
  - eauto.
  - unfold fetch_crossref_details in Hf. by destruct (negb _).
Qed.

Lemma work_detail_authors_run orcid_id put_code_ p log p' log' :
  work_detail_authors orcid_id put_code_ p log = (Ok p', log') →
  authors p' = default (authors p) (orcid_author_names orcid_id put_code_ log)
  ∧ title p' = title p ∧ year p' = year p.
Proof.
  unfold work_detail_authors, orcid_author_names.
  destruct (truthy put_code_); [|by intros [= <- <-]].
  rewrite io_bind_run. unfold fetch_work_details at 1.
  rewrite io_bind_lift.
  destruct (extract_authors_from_work_detail _) as [a|]; [|discriminate].
  rewrite io_ret_run. intros [= <- <-]. by destruct (truthy a).
Qed.

Lemma read_summary_publication work_summary s :
  read_summary work_summary = Ok (Some s) →
  authors (s_publication s) = JStr SENTINEL
  ∧ title (s_publication s) = s_title s
  ∧ doi (s_publication s) = s_doi s
  ∧ year (s_publication s)
    = (if truthy (s_year s)
       then match int (s_year s) with Ok n => JInt n | Raise _ => JNull end
       else JNull).
Proof.
  unfold read_summary. intros Hr. binds Hr.
  destruct (is_str "preprint" _); binds Hr; [discriminate|].
  injection Hr as <-. cbn. repeat split.
  match goal with H : (if truthy ?y then _ else _) = Ok _ |- _ =>
    destruct (truthy y); [destruct (int y); [|discriminate]|]; by injection H as <-
  end.
Qed.

Lemma enrich_authors orcid_id s log p log' :
  authors (s_publication s) = JStr SENTINEL →
  enrich orcid_id s log = (Ok (Some p), log') →
  authors p =
  match fetch_crossref_details (s_doi s) log with
  | (Ok (Some _), _) =>
      default (JStr SENTINEL) (crossref_author_names (s_doi s) log)
  | (_, log1) =>
      default (JStr SENTINEL) (orcid_author_names orcid_id (put_code s) log1)
  end.
Proof.
  intros Hauth. unfold enrich, crossref_author_names.
  destruct (truthy (s_doi s)) eqn:Hdoi.
  - rewrite io_bind_lift. destruct (slice60 (s_title s)); [|discriminate].
    rewrite io_bind_run.
    destruct (fetch_crossref_details_total (s_doi s) log)
      as (o & log1 & -> & [-> | (r & -> & Hne)]).
    + cbn [nonempty mbind option_bind]. rewrite io_bind_run.
      destruct (work_detail_authors _ _ _ _) as [[p1|] l] eqn:Hw; [|discriminate].
      intros [= <- <-]. apply work_detail_authors_run in Hw as (-> & _).
      by rewrite Hauth.
    + cbn [nonempty mbind option_bind]. rewrite Hne.
      destruct (truthy (cr_get r "is_preprint" _)); [discriminate|].
      intros [= <- <-]. cbn [merge authors]. unfold py_or.
      destruct (truthy (cr_get r "authors" JNull)); [done|by rewrite Hauth].
  - unfold fetch_crossref_details. rewrite Hdoi. cbn [negb]. rewrite io_bind_run.
    destruct (work_detail_authors _ _ _ _) as [[p1|] l] eqn:Hw; [|discriminate].
    rewrite io_bind_lift. destruct (slice60 (s_title s)); [|discriminate].
    intros [= <- <-]. apply work_detail_authors_run in Hw as (-> & _).
    by rewrite Hauth.
Qed.

Lemma work_detail_authors_log orcid_id put_code_ p log p' log' :
  work_detail_authors orcid_id put_code_ p log = (Ok p', log') →
  log' = ((if truthy put_code_ then [Get (work_url orcid_id put_code_)] else [])
          ++ log)%list.
Proof.
  unfold work_detail_authors.
  destruct (truthy put_code_); [|by intros [= <- <-]].
  rewrite io_bind_run. unfold fetch_work_details at 1.
  rewrite io_bind_lift.
  destruct (extract_authors_from_work_detail _) as [a|]; [|discriminate].
  rewrite io_ret_run. by intros [= <- <-].
Qed.

(** What a turn that keeps a record has done: after a successful lookup,
    the CrossRef request and the pause; otherwise the work-detail request
    if there is a put-code, after the CrossRef request and before the pause
    if there is a DOI. *)
Lemma enrich_log orcid_id s log p log' :
  enrich orcid_id s log = (Ok (Some p), log') →
  log' =
  match fetch_crossref_details (s_doi s) log with
  | (Ok (Some _), _) => Sleep :: Get (crossref_url (s_doi s)) :: log
  | (_, log1) =>
      ((if truthy (s_doi s) then [Sleep] else [])
       ++ (if truthy (put_code s)
           then [Get (work_url orcid_id (put_code s))] else [])
       ++ log1)%list
  end.
Proof.
  unfold enrich.
  destruct (truthy (s_doi s)) eqn:Hdoi.
  - rewrite io_bind_lift. destruct (slice60 (s_title s)); [|discriminate].
    rewrite io_bind_run.
    destruct (fetch_crossref_details_total (s_doi s) log)
      as (o & log1 & Hf & [-> | (r & -> & Hne)]); rewrite Hf.
    + cbn [nonempty mbind option_bind]. rewrite io_bind_run.
      destruct (work_detail_authors _ _ _ _) as [[p1|] l] eqn:Hw; [|discriminate].
      intros [= <- <-]. by apply work_detail_authors_log in Hw as ->.
    + cbn [nonempty mbind option_bind]. rewrite Hne.
      destruct (truthy (cr_get r "is_preprint" _)); [discriminate|].
      intros [= <- <-].
      by apply fetch_crossref_details_inv in Hf as (_ & -> & _).
  - unfold fetch_crossref_details. rewrite Hdoi. cbn [negb]. rewrite io_bind_run.
    destruct (work_detail_authors _ _ _ _) as [[p1|] l] eqn:Hw; [|discriminate].
    rewrite io_bind_lift. destruct (slice60 (s_title s)); [|discriminate].
    intros [= <- <-]. by apply work_detail_authors_log in Hw as ->.
Qed.

(** The CrossRef address is never the address of an ORCID work detail. *)
Lemma crossref_url_not_work_url doi_ orcid_id put_code_ :
  crossref_url doi_ ≠ work_url orcid_id put_code_.
Proof. unfold crossref_url, work_url. cbn. discriminate. Qed.

(** C9 (as amended). The authors of an emitted record: when the CrossRef
    lookup succeeded, CrossRef's joined author names if there are any and
    the sentinel otherwise, the ORCID work detail not being consulted (the
    turn consists of the CrossRef request and the pause, and that request
    does not go to the work detail); when there is no CrossRef data (no
    DOI, or a failed lookup), the joined credit names of the ORCID work
    detail if a put-code is present and the detail yields any, and the
    sentinel otherwise, the work detail being requested exactly when there
    is a put-code. *)
Theorem authors_source (orcid_id : string) (group work_summary : json)
    (s : summary) (p : publication) (log log' : list event) :
  first_summary group = Ok (Some work_summary) →
  read_summary work_summary = Ok (Some s) →
  process_group orcid_id group log = (Ok (Some p), log') →
  authors p =
  match fetch_crossref_details (s_doi s) log with
  | (Ok (Some _), _) =>
      default (JStr SENTINEL) (crossref_author_names (s_doi s) log)
  | (_, log1) =>
      default (JStr SENTINEL) (orcid_author_names orcid_id (put_code s) log1)
  end
  ∧ log' =
    match fetch_crossref_details (s_doi s) log with
    | (Ok (Some _), _) => Sleep :: Get (crossref_url (s_doi s)) :: log
    | (_, log1) =>
        ((if truthy (s_doi s) then [Sleep] else [])
         ++ (if truthy (put_code s)
             then [Get (work_url orcid_id (put_code s))] else [])
         ++ log1)%list
    end
  ∧ crossref_url (s_doi s) ≠ work_url orcid_id (put_code s).
Proof.
  intros Hg Hs. unfold process_group.
  rewrite io_bind_lift, Hg, io_bind_lift, Hs, io_bind_run.
  destruct (enrich orcid_id s log) as [[[p0|]|] l] eqn:He; try discriminate.
  rewrite io_ret_run. destruct (_ && _); [|discriminate]. intros [= <- <-].
  split; [|split].
  - apply enrich_authors in He; [done|].
    by apply read_summary_publication in Hs as (? & _).
  - by apply enrich_log in He.
  - apply crossref_url_not_work_url.
Qed.

End Properties.

(** * The specification against concrete runs *)

(** C1. ORCID has a title but no year, CrossRef supplies the year: after
    the merge the record has both a title and a year, and yet nothing is
    appended, because the final test reads the ORCID values. *)
Theorem undated_work_dropped :
  read_summary (summary_of [doi_x]) = Ok (Some undated_summary)
  ∧ enrich (W := dating_world) ORCID_ID undated_summary []
    = (Ok (Some (plain "" (JInt 2020))), [Sleep; Get crossref_x])
  ∧ process_group (W := dating_world) ORCID_ID undated_group []
    = (Ok None, [Sleep; Get crossref_x])
  ∧ parse_orcid_works (W := dating_world)
      (obj [("group", JList [undated_group])]) ORCID_ID []
    = (Ok [], [Sleep; Get crossref_x]).
Proof. repeat split; vm_compute; reflexivity. Qed.

(** C2 (as stated) fails: CrossRef supplies no journal, yet the ORCID
    journal is not retained, the CrossRef publisher takes its place. *)
Lemma merge_journal_not_retained :
  ¬ (∀ (crossref_data : gmap string json) (p : publication) (f : field),
       field_of f (merge crossref_data p) = overlay_rule crossref_data p f).
Proof.
  intros Hall.
  specialize (Hall {[ "publisher" := JStr "Elsevier" ]}
                (plain "Nature" (JInt 2020)) Journal).
  vm_compute in Hall. discriminate Hall.
Qed.

(** An ORCID preprint with a DOI CrossRef knows: the turn ends in the
    [continue], and nothing was requested. *)
Lemma preprint_skipped_witness :
  orcid_type preprint_group = Some (JStr "preprint")
  ∧ process_group (W := authored_world) ORCID_ID preprint_group [] = (Ok None, []).
Proof.
  assert (Ht : orcid_type preprint_group = Some (JStr "preprint"))
    by (vm_compute; reflexivity).
  split; [exact Ht|].
  destruct (preprint_skipped (W := authored_world) ORCID_ID preprint_group [] Ht)
    as [[Hp | [e Hp]] _]; [exact Hp |].
  vm_compute in Hp. discriminate Hp.
Defined.

(** A journal article for ORCID, posted content for CrossRef: skipped right
    after the CrossRef request. *)
Lemma crossref_preprint_skipped_witness :
  slice60 (s_title article_summary) = Ok ()
  ∧ process_group (W := posted_world) ORCID_ID article_group []
    = (Ok None, [Get (crossref_url (s_doi article_summary))]).
Proof.
  split; [reflexivity|].
  refine (proj2 (crossref_preprint_skipped (W := posted_world) ORCID_ID
                   article_group (summary_of [year_2020; doi_x]) article_summary
                   [] "posted-content" _ _ _ _ _) eq_refl);
    [vm_compute; reflexivity | vm_compute; reflexivity | vm_compute; reflexivity
    | vm_compute; reflexivity | left; reflexivity].
Defined.

(** All three keys are present: the year is the one of 'published'. *)
Lemma crossref_year_priority_witness :
  extracted_year (W := thrice_dated_world) (JStr "10.1/x") []
  = Some (Some (JInt 2020))
  ∧ year_by_priority
      <$> crossref_message (W := thrice_dated_world) (JStr "10.1/x") []
    = Some (Some (JInt 2020)).
Proof.
  assert (Hy : extracted_year (W := thrice_dated_world) (JStr "10.1/x") []
               = Some (Some (JInt 2020))) by (vm_compute; reflexivity).
  split; [exact Hy|].
  exact (crossref_year_priority (W := thrice_dated_world) _ _ _ Hy).
Defined.

(** The key is chosen by presence alone: 'published' without a date gives
    no year, whatever 'published-print' holds. *)
Example published_without_date :
  extracted_year (W := half_dated_world) (JStr "10.1/x") [] = Some None.
Proof. vm_compute. reflexivity. Qed.

(** A failed works fetch gives 1 after the one request; one work that can
    be kept gives 0. *)
Lemma main_exit_code_witness :
  main (W := serving []) [] = (Ok 1, [Get (works_url ORCID_ID)])
  ∧ ∃ log', main (W := one_work_world) [] = (Ok 0, log').
Proof.
  split.
  - destruct (main_exit_code (W := serving []) []) as (_ & Hfail & _).
    apply Hfail. vm_compute. reflexivity.
  - eexists.
    destruct (main_exit_code (W := one_work_world) []) as (Hzero & _ & _).
    apply Hzero. eexists _, _, _.
    split; [vm_compute; reflexivity|].
    split; [vm_compute; reflexivity|].
    split; reflexivity.
Defined.

(** A dictionary without 'group', the number 5, and a group whose first
    summary is null. *)
Lemma parse_orcid_works_malformed_witness :
  parse_orcid_works (W := serving []) (obj [("works", JList [])]) ORCID_ID []
  = (Ok [], [])
  ∧ parse_orcid_works (W := serving []) (JInt 5) ORCID_ID [] = (Raise TypeError, [])
  ∧ process_group (W := serving []) ORCID_ID (obj [("work-summary", JList [JNull])]) []
    = (Ok None, []).
Proof.
  destruct (parse_orcid_works_malformed (W := serving []))
    as (_ & Hkey & _ & Hnumber & _ & Hgroup & _).
  split; [apply Hkey; vm_compute; reflexivity|].
  split; [apply Hnumber; lia | apply Hgroup; vm_compute; reflexivity].
Defined.

(** C10 (as stated) fails: the number 5 is not [None] and lacks the key
    'group' as much as any value can, and the membership test raises
    TypeError on it. *)
Lemma number_without_group :
  lacks_key (JInt 5) "group" = true
  ∧ parse_orcid_works (W := serving []) (JInt 5) ORCID_ID [] = (Raise TypeError, [])
  ∧ ¬ empty_without_group (W := serving []) ORCID_ID.
Proof.
  split; [reflexivity|]. split; [reflexivity|].
  intros Hclaim. destruct (Hclaim (JInt 5) []) as [log' Hrun]; [by right|].
  discriminate Hrun.
Qed.

(** The scenario of the specification: CrossRef names A B and C D, with
    five citations; the turn is the CrossRef request and the pause. *)
Lemma authors_source_witness :
  process_group (W := authored_world) ORCID_ID article_group []
  = (Ok (Some (record "" (JInt 2020) (JStr "10.1/x") (JStr "https://doi.org/10.1/x")
                 (JStr "A B, C D") (JInt 5))),
     [Sleep; Get crossref_x])
  ∧ JStr "A B, C D"
    = match fetch_crossref_details (W := authored_world) (s_doi article_summary) [] with
      | (Ok (Some _), _) =>
          default (JStr SENTINEL)
            (crossref_author_names (W := authored_world) (s_doi article_summary) [])
      | (_, log1) =>
          default (JStr SENTINEL)
            (orcid_author_names (W := authored_world) ORCID_ID
               (put_code article_summary) log1)
      end
  ∧ [Sleep; Get crossref_x]
    = match fetch_crossref_details (W := authored_world) (s_doi article_summary) [] with
      | (Ok (Some _), _) => [Sleep; Get (crossref_url (s_doi article_summary))]
      | (_, log1) =>
          ((if truthy (s_doi article_summary) then [Sleep] else [])
           ++ (if truthy (put_code article_summary)
               then [Get (work_url ORCID_ID (put_code article_summary))] else [])
           ++ log1)%list
      end
  ∧ crossref_url (s_doi article_summary)
    ≠ work_url ORCID_ID (put_code article_summary).
Proof.
  assert (Hrun : process_group (W := authored_world) ORCID_ID article_group []
    = (Ok (Some (record "" (JInt 2020) (JStr "10.1/x") (JStr "https://doi.org/10.1/x")
                 (JStr "A B, C D") (JInt 5))),
     [Sleep; Get crossref_x])) by (vm_compute; reflexivity).
  split; [exact Hrun|].
  refine (authors_source (W := authored_world) ORCID_ID article_group
           (summary_of [year_2020; doi_x]) article_summary _ [] _ _ _ Hrun);
    vm_compute; reflexivity.
Defined.

(** C9 (as stated) fails.  CrossRef answers without author names and the
    ORCID work detail carries a credit name: the record has the sentinel
    although a source yields a name, because after a CrossRef answer the
    work detail is not asked (the turn is the CrossRef request and the
    pause). *)
Lemma sentinel_despite_names :
  process_group (W := credited_world) ORCID_ID article_group []
  = (Ok (Some (plain "" (JInt 2020))), [Sleep; Get crossref_x])
  ∧ orcid_author_names (W := credited_world) ORCID_ID (JInt 7) [Get crossref_x]
    = Some (JStr "Jane Doe")
  ∧ ¬ sentinel_iff_no_names (W := credited_world) ORCID_ID article_group [].
Proof.
  split; [vm_compute; reflexivity|]. split; [vm_compute; reflexivity|].
  intros Hclaim.
  edestruct (Hclaim (summary_of [year_2020; doi_x]) article_summary
               (plain "" (JInt 2020)) [Sleep; Get crossref_x]) as [Hnone _];
    [vm_compute; reflexivity | vm_compute; reflexivity | vm_compute; reflexivity |].
  destruct Hnone as [_ Horcid]; [vm_compute; reflexivity|].
  vm_compute in Horcid. discriminate Horcid.
Qed.

(** * Further properties *)

Section More.
Context {B : Builtins} {W : World}.

Ltac binds H := repeat (apply res_bind_Ok in H as (? & ? & H)).

(** ** The CrossRef result, key by key *)

Lemma first_of_key d field key result r :
  first_of (JDict d) field key result = Ok r →
  r !! key = match d !! field with
             | Some v =>
                 if truthy v
                 then match item0 v with Ok x => Some x | Raise _ => None end
                 else result !! key
             | None => result !! key
             end.
Proof.
  unfold first_of. cbn [contains item mbind res_bind].
  destruct (d !! field) as [v|]; cbn [mbind res_bind]; [|by intros [= <-]].
  destruct (truthy v); [|by intros [= <-]].
  destruct (item0 v) as [x|]; cbn [mbind res_bind]; [|discriminate].
  intros [= <-]. by rewrite lookup_insert_eq.
Qed.

Lemma authors_of_key d result r :
  authors_of (JDict d) result = Ok r →
  r !! "authors" = match d !! "author" with
                   | Some a =>
                       match crossref_authors a with
                       | Ok v => Some v
                       | Raise _ => None
                       end
                   | None => result !! "authors"
                   end.
Proof.
  unfold authors_of. cbn [contains item mbind res_bind].
  destruct (d !! "author") as [a|]; cbn [mbind res_bind]; [|by intros [= <-]].
  destruct (crossref_authors a) as [v|]; cbn [mbind res_bind]; [|discriminate].
  intros [= <-]. by rewrite lookup_insert_eq.
Qed.

(** Every key of a result, read off the message. *)
Lemma crossref_result_keys d r :
  crossref_result (JDict d) = Ok r →
  (r !! "authors" = match d !! "author" with
                    | Some a =>
                        match crossref_authors a with
                        | Ok v => Some v
                        | Raise _ => None
                        end
                    | None => None
                    end)
  ∧ (r !! "title" = match d !! "title" with
                    | Some v =>
                        if truthy v
                        then match item0 v with Ok x => Some x | Raise _ => None end
                        else None
                    | None => None
                    end)
  ∧ r !! "doi" = Some (default JNull (d !! "DOI"))
  ∧ r !! "url" = Some (py_or (default JNull (d !! "URL"))
                         (if truthy (default JNull (d !! "DOI"))
                          then JStr ("https://doi.org/"
                                     +:+ str (default JNull (d !! "DOI")))
                          else JNull))
  ∧ (∃ t, mapping_get crossref_type_mapping (default (JStr "") (d !! "type"))
            "Publication" = Ok t
          ∧ r !! "type" = Some t)
  ∧ r !! "abstract" = Some (default (JStr "") (d !! "abstract"))
  ∧ r !! "citations" = Some (default (JInt 0) (d !! "is-referenced-by-count"))
  ∧ r !! "publisher" = Some (default (JStr "") (d !! "publisher"))
  ∧ r !! "volume" = Some (default (JStr "") (d !! "volume"))
  ∧ r !! "issue" = Some (default (JStr "") (d !! "issue"))
  ∧ r !! "pages" = Some (default (JStr "") (d !! "page"))
  ∧ match d !! "reference" with
    | Some v => ∃ n, len v = Ok n ∧ r !! "references_count" = Some (JInt n)
    | None => r !! "references_count" = None
    end.
Proof.
  unfold crossref_result. intros Hr.
  apply res_bind_Ok in Hr as (r1 & Hr1 & Hr).
  apply res_bind_Ok in Hr as (r2 & Hr2 & Hr).
  apply res_bind_Ok in Hr as (r3 & Hr3 & Hr).
  apply res_bind_Ok in Hr as (r4 & Hr4 & Hr).
  cbn [dict_get mbind res_bind] in Hr.
  apply res_bind_Ok in Hr as (t & Ht & Hr).
  assert (Ha : r4 !! "authors" = r1 !! "authors").
  { by rewrite (crossref_year_lookup _ _ _ Hr4), (first_of_lookup _ _ _ _ _ Hr3),
      (first_of_lookup _ _ _ _ _ Hr2) by done. }
  assert (Hti : r4 !! "title" = r2 !! "title").
  { by rewrite (crossref_year_lookup _ _ _ Hr4), (first_of_lookup _ _ _ _ _ Hr3)
      by done. }
  assert (Hrc : r4 !! "references_count" = None).
  { by rewrite (crossref_year_lookup _ _ _ Hr4), (first_of_lookup _ _ _ _ _ Hr3),
      (first_of_lookup _ _ _ _ _ Hr2), (authors_of_lookup _ _ _ Hr1) by done. }
  pose proof (authors_of_key _ _ _ Hr1) as Ka. rewrite lookup_empty in Ka.
  pose proof (first_of_key _ _ _ _ _ Hr2) as Kt.
  rewrite (authors_of_lookup _ _ _ Hr1), lookup_empty in Kt by done.
  cbn [contains item mbind res_bind] in Hr.
  destruct (d !! "reference") as [v|]; cbn [mbind res_bind] in Hr;
    [destruct (len v) as [n|]; cbn [mbind res_bind] in Hr; [|discriminate]|];
    injection Hr as <-;
    repeat split; try (exists t; split; [done|]); try (exists n; split; [done|]);
    rewrite ?lookup_insert_ne by done;
    first [apply lookup_insert_eq | by rewrite Ha, Ka | by rewrite Hti, Kt
          | exact Hrc].
Qed.

(** ** Joined names *)

Lemma join_texts sep (names : list string) :
  join sep (JStr <$> names) = Ok (String.concat sep names).
Proof.
  induction names as [|n [|n' names] IH]; [done..|].
  change (JStr <$> n :: n' :: names) with (JStr n :: (JStr <$> n' :: names)).
  cbn [join]. change (JStr <$> n' :: names) with (JStr n' :: (JStr <$> names)) in *.
  by rewrite IH.
Qed.

Lemma append_nonempty (a b : string) : a ≠ "" → a +:+ b ≠ "".
Proof. by destruct a. Qed.

Lemma spaced_nonempty (a b : string) : a +:+ " " +:+ b ≠ "".
Proof. by destruct a. Qed.

Lemma eqb_empty (s : string) : negb (String.eqb s "") = true ↔ s ≠ "".
Proof. by destruct s. Qed.

(** A join over truthy items that succeeds is a non-empty string. *)
Lemma join_text sep (l : list json) (s : string) :
  l ≠ [] → Forall (λ x, truthy x = true) l → join sep l = Ok s → s ≠ "".
Proof.
  destruct l as [|x rest]; [done|]. intros _ Hl. inversion_clear Hl as [|?? Hx _].
  destruct x as [| | |s0| |]; try discriminate.
  apply eqb_empty in Hx. cbn [join].
  destruct rest as [|y rest]; [by intros [= <-]|].
  intros Hj. apply res_bind_Ok in Hj as (r & _ & [= <-]).
  by apply append_nonempty.
Qed.

Lemma joined_names (names : list json) (v : json) :
  Forall (λ x, truthy x = true) names →
  match names with [] => Ok JNull | _ :: _ => JStr <$> join ", " names end = Ok v →
  v = JNull ∨ is_text v = true.
Proof.
  intros Hn. destruct names as [|n names]; [intros [= <-]; by left|].
  destruct (join ", " (n :: names)) as [s|] eqn:Hj; [|discriminate].
  intros [= <-]. right. cbn [is_text]. apply eqb_empty.
  by apply (join_text ", " (n :: names)).
Qed.

Lemma author_names_truthy l acc names :
  Forall (λ x, truthy x = true) acc →
  author_names l acc = Ok names → Forall (λ x, truthy x = true) names.
Proof.
  revert acc. induction l as [|a l IH]; intros acc Hacc; [by intros [= <-]|].
  cbn [author_names]. intros Hr.
  apply res_bind_Ok in Hr as (acc' & Ha & Hr). apply (IH acc'); [|done].
  unfold author_name in Ha. binds Ha.
  destruct (truthy _ && truthy _).
  - injection Ha as <-. apply Forall_app. split; [done|].
    apply Forall_singleton. cbn [truthy]. apply eqb_empty, spaced_nonempty.
  - destruct (truthy _) eqn:Hf; injection Ha as <-; [|done].
    apply Forall_app. split; [done|]. by apply Forall_singleton.
Qed.

Lemma crossref_authors_text a v :
  crossref_authors a = Ok v → v = JNull ∨ is_text v = true.
Proof.
  unfold crossref_authors. intros Hr.
  apply res_bind_Ok in Hr as (l & _ & Hr).
  apply res_bind_Ok in Hr as (names & Hn & Hr).
  apply (joined_names names); [|done]. by eapply author_names_truthy.
Qed.

Lemma credit_names_truthy l acc names :
  Forall (λ x, truthy x = true) acc →
  credit_names l acc = Ok names → Forall (λ x, truthy x = true) names.
Proof.
  revert acc. induction l as [|a l IH]; intros acc Hacc; [by intros [= <-]|].
  cbn [credit_names]. intros Hr.
  apply res_bind_Ok in Hr as (acc' & Ha & Hr). apply (IH acc'); [|done].
  unfold credit_name in Ha.
  destruct (negb (truthy a)); [by injection Ha as <-|].
  apply res_bind_Ok in Ha as (cnd & _ & Ha).
  destruct (truthy cnd); [|by injection Ha as <-].
  apply res_bind_Ok in Ha as (v & _ & Ha).
  destruct (truthy v) eqn:Hv; injection Ha as <-; [|done].
  apply Forall_app. split; [done|]. by apply Forall_singleton.
Qed.

(** ** The CrossRef lookup *)

Lemma lookup_result (doi_ : json) (log : list event) :
  lookup_succeeds doi_ log = true →
  ∃ r d,
    fetch_crossref_details doi_ log = (Ok (Some r), Get (crossref_url doi_) :: log)
    ∧ crossref_message doi_ log = Some d
    ∧ crossref_result (JDict d) = Ok r
    ∧ truthy doi_ = true.
Proof.
  unfold lookup_succeeds, crossref_message.
  destruct (fetch_crossref_details doi_ log) as [[[r|]|] log'] eqn:Hf;
    try discriminate.
  intros _. pose proof Hf as Hf'.
  apply fetch_crossref_details_inv in Hf' as (Hdoi & -> & data & -> & Hbody).
  apply crossref_body_inv in Hbody as (d & Hitem & Hres).
  exists r, d. cbn [mbind option_bind]. by rewrite Hitem.
Qed.

Lemma result_field_run (doi_ : json) (log log' : list event) r k :
  fetch_crossref_details doi_ log = (Ok (Some r), log') →
  result_field doi_ log k = Some (r !! k).
Proof. unfold result_field. by intros ->. Qed.

(** X1. Without a DOI there is no request and no result; with a DOI there
    is exactly one request, and no result unless the body is a dictionary
    that holds a dictionary under 'message'. *)
Theorem fetch_crossref_details_none (doi_ : json) (log : list event) :
  (truthy doi_ = false → fetch_crossref_details doi_ log = (Ok None, log))
  ∧ (truthy doi_ = true →
     crossref_message doi_ log = None →
     fetch_crossref_details doi_ log = (Ok None, Get (crossref_url doi_) :: log)).
Proof.
  split.
  - intros Hd. unfold fetch_crossref_details. by rewrite Hd.
  - intros Hd Hm.
    destruct (lookup_succeeds doi_ log) eqn:Hl.
    + apply lookup_result in Hl as (r & d & _ & Hm' & _). congruence.
    + unfold lookup_succeeds in Hl. unfold fetch_crossref_details in *.
      rewrite Hd in *. cbn [negb] in *.
      by destruct (http_get log (crossref_url doi_)) as [data|];
        [destruct (crossref_body data) as [[r|]|]|].
Qed.

Lemma mapping_label (mapping : gmap string string) (k : json) (t : json) :
  map_Forall (λ _ v, v ∈ labels) mapping →
  mapping_get mapping k "Publication" = Ok t → is_label t = true.
Proof.
  intros Hm. unfold mapping_get.
  assert (Hp : "Publication" ∈ labels) by (unfold labels; set_solver).
  destruct k as [| | |s| |]; try discriminate; intros [= <-]; cbn [is_label];
    apply bool_decide_eq_true_2; try done.
  destruct (mapping !! s) as [v|] eqn:Hs; [|done]. by apply (Hm s v).
Qed.

Lemma crossref_labels : map_Forall (λ _ v, v ∈ labels) crossref_type_mapping.
Proof.
  unfold crossref_type_mapping, labels. intros k v Hkv.
  repeat (apply lookup_insert_Some in Hkv as [[_ <-]|[_ Hkv]]; [set_solver|]).
  apply lookup_singleton_Some in Hkv as [_ <-]. set_solver.
Qed.

Lemma orcid_labels : map_Forall (λ _ v, v ∈ labels) orcid_type_mapping.
Proof.
  unfold orcid_type_mapping, labels. intros k v Hkv.
  repeat (apply lookup_insert_Some in Hkv as [[_ <-]|[_ Hkv]]; [set_solver|]).
  apply lookup_singleton_Some in Hkv as [_ <-]. set_solver.
Qed.

Lemma crossref_preprint_type (pub_type t : json) :
  mapping_get crossref_type_mapping pub_type "Publication" = Ok t →
  is_str "posted-content" pub_type || is_str "preprint" pub_type = true →
  t = JStr "Publication".
Proof.
  destruct pub_type as [| | |s| |]; try discriminate.
  cbn [is_str mapping_get]. intros [= <-] Hs.
  apply orb_true_iff in Hs as [Hs | Hs]; apply String.eqb_eq in Hs; by subst s.
Qed.

(** X2. A result of the lookup always holds the keys doi, url, abstract,
    citations, publisher, volume, issue and pages; its type is one of the
    six labels; its is_preprint is a boolean, and a work flagged as preprint
    has the type Publication. *)
Theorem crossref_result_shape (doi_ : json) (log : list event) :
  lookup_succeeds doi_ log = true →
  (∃ t, result_field doi_ log "type" = Some (Some t) ∧ is_label t = true)
  ∧ (∃ b : bool,
       result_field doi_ log "is_preprint" = Some (Some (JBool b))
       ∧ (b = true →
          result_field doi_ log "type" = Some (Some (JStr "Publication"))))
  ∧ ∀ k, k ∈ ["doi"; "url"; "abstract"; "citations"; "publisher"; "volume";
              "issue"; "pages"] →
         ∃ v, result_field doi_ log k = Some (Some v).
Proof.
  intros Hl. apply lookup_result in Hl as (r & d & Hf & _ & Hres & _).
  pose proof (crossref_result_keys _ _ Hres)
    as (_ & _ & Kdoi & Kurl & (t & Ht & Kty) & Kab & Kci & Kpu & Kvo & Kis & Kpa & _).
  pose proof (crossref_result_inv _ _ Hres) as (_ & _ & _ & _ & Kpre & _).
  rewrite !(result_field_run _ _ _ _ _ Hf).
  split; [|split].
  - exists t. split; [by rewrite Kty|].
    exact (mapping_label _ _ _ crossref_labels Ht).
  - eexists. split; [by rewrite Kpre|]. intros Hb. rewrite Kty.
    by rewrite (crossref_preprint_type _ _ Ht Hb).
  - intros k Hk. rewrite (result_field_run _ _ _ _ _ Hf).
    set_unfold in Hk.
    destruct_or!; subst k;
      rewrite ?Kdoi, ?Kurl, ?Kab, ?Kci, ?Kpu, ?Kvo, ?Kis, ?Kpa; eauto.
Qed.

(** ** CrossRef authors *)

Lemma text_at_get d k s :
  text_at d k = Some s →
  ∃ v, dict_get (JDict d) k (JStr "") = Ok v
       ∧ truthy v = negb (String.eqb s "")
       ∧ (truthy v = true → v = JStr s).
Proof.
  unfold text_at. cbn [dict_get].
  destruct (d !! k) as [[| | |s'| |]|]; try discriminate; intros [= <-];
    eexists; (split; [reflexivity|]); by split.
Qed.

Lemma author_name_person author g f names :
  person author = Some (g, f) →
  author_name author names
  = Ok (names ++ match display_name (g, f) with
                 | Some n => [JStr n]
                 | None => []
                 end)%list.
Proof.
  destruct author as [| | | | |d]; try discriminate. cbn [person].
  destruct (text_at d "given") as [g'|] eqn:Hg; [|discriminate].
  destruct (text_at d "family") as [f'|] eqn:Hf; [|discriminate].
  intros [= -> ->].
  apply text_at_get in Hg as (vg & Hg & Tg & Vg).
  apply text_at_get in Hf as (vf & Hf & Tf & Vf).
  unfold author_name, display_name. rewrite Hg, Hf. cbn [mbind res_bind fst snd].
  rewrite Tg, Tf.
  destruct (String.eqb f ""); cbn [negb andb].
  - destruct (String.eqb g ""); cbn [negb]; by rewrite app_nil_r.
  - destruct (String.eqb g "") eqn:Eg; cbn [negb].
    + by rewrite Vf by (by rewrite Tf).
    + rewrite Vg, Vf by (by rewrite ?Tg, ?Tf; rewrite ?Eg). by rewrite !str_JStr.
Qed.

Lemma author_names_people l people names :
  mapM person l = Some people →
  author_names l names = Ok (names ++ (JStr <$> omap display_name people))%list.
Proof.
  revert people names. induction l as [|a l IH]; intros people names.
  - intros [= <-]. by rewrite app_nil_r.
  - cbn [mapM]. intros Hp.
    destruct (person a) as [[g f]|] eqn:Ha; [|discriminate].
    destruct (mapM person l) as [people'|]; [|discriminate].
    injection Hp as <-. cbn [author_names].
    rewrite (author_name_person _ _ _ _ Ha). cbn [mbind res_bind].
    rewrite (IH people' _ eq_refl). cbn [omap list_omap].
    destruct (display_name (g, f)); cbn [fmap list_fmap];
      by rewrite <- ?app_assoc, ?app_nil_r.
Qed.

(** X3. For authors that are dictionaries with a string (or nothing) under
    'given' and 'family', the authors value is the names joined by ", " in
    the order of the list: "given family", the family name alone when there
    is no given name, and nothing for an author without a family name;
    [None] when no name is left. *)
Theorem crossref_authors_people (l : list json) (people : list (string * string)) :
  mapM person l = Some people →
  crossref_authors (JList l) = Ok (joined (omap display_name people)).
Proof.
  intros Hp. unfold crossref_authors. cbn [iter mbind res_bind].
  rewrite (author_names_people _ _ [] Hp). cbn [mbind res_bind app].
  destruct (omap display_name people) as [|n names] eqn:Hn; [done|].
  change (JStr <$> n :: names) with (JStr n :: (JStr <$> names)).
  change (JStr n :: (JStr <$> names)) with (JStr <$> n :: names).
  by rewrite join_texts.
Qed.

Lemma result_authors_text (doi_ : json) (log log' : list event) r v :
  fetch_crossref_details doi_ log = (Ok (Some r), log') →
  r !! "authors" = Some v → v = JNull ∨ is_text v = true.
Proof.
  intros Hf Hv.
  apply fetch_crossref_details_inv in Hf as (_ & _ & data & _ & Hbody).
  apply crossref_body_inv in Hbody as (d & _ & Hres).
  apply crossref_result_keys in Hres as (Ka & _). rewrite Hv in Ka.
  destruct (d !! "author") as [a|]; [|discriminate].
  destruct (crossref_authors a) as [v'|] eqn:Hc; [|discriminate].
  injection Ka as ->. by eapply crossref_authors_text.
Qed.

(** X4. The authors value of a result of the lookup is [None] or a
    non-empty string: never an empty string, never another kind of value. *)
Theorem crossref_authors_never_empty (doi_ : json) (log : list event) (v : json) :
  result_field doi_ log "authors" = Some (Some v) →
  v = JNull ∨ is_text v = true.
Proof.
  unfold result_field.
  destruct (fetch_crossref_details doi_ log) as [[[r|]|] log'] eqn:Hf;
    try discriminate.
  intros [= Hv]. by eapply result_authors_text.
Qed.

(** X5. The doi of a result is the message's DOI; its url is the
    message's URL when that is truthy, otherwise the doi.org address of the
    DOI; so a result has a url exactly when the message has a URL or a
    DOI. *)
Theorem crossref_result_url (doi_ : json) (log : list event)
    (message : gmap string json) :
  lookup_succeeds doi_ log = true →
  crossref_message doi_ log = Some message →
  let DOI := default JNull (message !! "DOI") in
  let URL := default JNull (message !! "URL") in
  result_field doi_ log "doi" = Some (Some DOI)
  ∧ ∃ u, result_field doi_ log "url" = Some (Some u)
         ∧ (truthy URL = true → u = URL)
         ∧ (truthy URL = false → truthy DOI = true →
            u = JStr ("https://doi.org/" +:+ str DOI))
         ∧ truthy u = truthy URL || truthy DOI.
Proof.
  intros Hl Hm DOI URL.
  apply lookup_result in Hl as (r & d & Hf & Hm' & Hres & _).
  rewrite Hm in Hm'. injection Hm' as <-.
  apply crossref_result_keys in Hres as (_ & _ & Kdoi & Kurl & _).
  rewrite !(result_field_run _ _ _ _ _ Hf).
  split; [by rewrite Kdoi|].
  eexists. split; [by rewrite Kurl|]. fold DOI URL. unfold py_or.
  destruct (truthy URL) eqn:HU; [by repeat split|].
  destruct (truthy DOI) eqn:HD; by repeat split.
Qed.

(** X6. Without a DOI fetch_authors_from_crossref returns [None] without
    any request.  Whatever it returns is [None] or a non-empty string: the
    author names the result of the lookup carries, [None] when the lookup
    gives no result or the result no names. *)
Theorem fetch_authors_from_crossref_text (doi_ : json) (log : list event) :
  (truthy doi_ = false → fetch_authors_from_crossref doi_ log = (Ok JNull, log))
  ∧ ∀ v log',
      fetch_authors_from_crossref doi_ log = (Ok v, log') →
      (v = JNull ∨ is_text v = true)
      ∧ v = default JNull (crossref_author_names doi_ log).
Proof.
  unfold fetch_authors_from_crossref, crossref_author_names.
  rewrite io_bind_run. split.
  - intros Hd. unfold fetch_crossref_details. by rewrite Hd.
  - intros v log'.
    destruct (fetch_crossref_details doi_ log) as [[[r|]|e] log1] eqn:Hf;
      [|intros [= <- <-]; by split; [left|]|discriminate].
    intros [= <- <-].
    assert (Hne : truthy (JDict r) = true).
    { apply fetch_crossref_details_inv in Hf as (_ & _ & data & _ & Hbody).
      apply crossref_body_inv in Hbody as (d & _ & Hres).
      by apply crossref_result_inv in Hres as (_ & _ & _ & _ & _ & Hne). }
    cbn [nonempty mbind option_bind truthy]. cbn [truthy] in Hne. rewrite Hne.
    unfold cr_get.
    destruct (r !! "authors") as [v|] eqn:Hv; [|by split; [left|]].
    cbn [from_option id].
    destruct (result_authors_text _ _ _ _ _ Hf Hv) as [-> | Ht];
      [by split; [left|]|].
    split; [by right|].
    destruct v as [| | |t| |]; try discriminate Ht.
    cbn [truthy is_text] in *. by rewrite Ht.
Qed.

(** ** ORCID credit names *)

Lemma extract_authors_text (work_detail v : json) :
  extract_authors_from_work_detail work_detail = Ok v →
  v = JNull ∨ is_text v = true.
Proof.
  unfold extract_authors_from_work_detail.
  destruct (negb (truthy work_detail)); [intros [= <-]; by left|]. intros Hr.
  apply res_bind_Ok in Hr as (cd & _ & Hr).
  destruct (negb (truthy cd)); [injection Hr as <-; by left|].
  apply res_bind_Ok in Hr as (cs & _ & Hr).
  destruct (negb (truthy cs)); [injection Hr as <-; by left|].
  apply res_bind_Ok in Hr as (l & _ & Hr).
  apply res_bind_Ok in Hr as (names & Hn & Hr).
  apply (joined_names names); [|done]. by eapply credit_names_truthy.
Qed.

(** X7. What extract_authors_from_work_detail returns, when it returns, is
    [None] or a non-empty string. *)
Theorem extract_authors_never_empty (work_detail v : json) :
  extract_authors_from_work_detail work_detail = Ok v →
  v = JNull ∨ is_text v = true.
Proof. apply extract_authors_text. Qed.

Lemma truthy_dict_false (d : gmap string json) :
  truthy (JDict d) = false → d = ∅.
Proof.
  cbn [truthy]. intros Hd. by apply negb_false_iff, Nat.eqb_eq, map_size_empty_iff in Hd.
Qed.

Lemma credit_name_credit contributor c names :
  credit contributor = Some c →
  credit_name contributor names
  = Ok (names ++ match c with Some n => [JStr n] | None => [] end)%list.
Proof.
  unfold credit, credit_name.
  destruct contributor as [| | | | |d]; try discriminate.
  { intros [= <-]. cbn. by rewrite app_nil_r. }
  destruct (truthy (JDict d)) eqn:Hd; cbn [negb dict_get mbind res_bind].
  - destruct (d !! "credit-name") as [[| | | | |cn]|]; try discriminate;
      cbn [from_option id truthy mbind res_bind];
      try (intros [= <-]; by rewrite app_nil_r).
    destruct (text_at cn "value") as [s|] eqn:Hs; [|discriminate].
    cbn [mbind option_bind]. intros [= <-].
    destruct (negb (size cn =? 0)%nat) eqn:Hcn.
    + unfold text_at in Hs. cbn [dict_get mbind res_bind].
      destruct (cn !! "value") as [[| | |s'| |]|]; try discriminate;
        injection Hs as <-; cbn [from_option id truthy];
        try by rewrite app_nil_r.
      destruct (String.eqb _ ""); cbn [negb]; by rewrite ?app_nil_r.
    + apply truthy_dict_false in Hcn. subst cn.
      unfold text_at in Hs. rewrite lookup_empty in Hs. injection Hs as <-.
      cbn. by rewrite app_nil_r.
  - apply truthy_dict_false in Hd. subst d.
    rewrite lookup_empty. intros [= <-]. by rewrite app_nil_r.
Qed.

Lemma credit_names_credits l credits names :
  mapM credit l = Some credits →
  credit_names l names = Ok (names ++ (JStr <$> omap id credits))%list.
Proof.
  revert credits names. induction l as [|a l IH]; intros credits names.
  - intros [= <-]. by rewrite app_nil_r.
  - cbn [mapM]. intros Hp.
    destruct (credit a) as [c|] eqn:Ha; [|discriminate].
    destruct (mapM credit l) as [credits'|]; [|discriminate].
    injection Hp as <-. cbn [credit_names].
    rewrite (credit_name_credit _ _ _ Ha). cbn [mbind res_bind].
    rewrite (IH credits' _ eq_refl). cbn [omap list_omap].
    destruct c; cbn [id fmap list_fmap]; by rewrite <- ?app_assoc, ?app_nil_r.
Qed.

(** X8. For a work detail whose contributors are null or dictionaries with
    a string (or nothing) as credit name, the result is the non-empty
    credit names joined by ", " in the order of the list; contributors
    without a credit name are passed over, and the result is [None] when no
    name is left. *)
Theorem extract_authors_credits (d cd : gmap string json) (l : list json)
    (credits : list (option string)) :
  d !! "contributors" = Some (JDict cd) →
  cd !! "contributor" = Some (JList l) →
  mapM credit l = Some credits →
  extract_authors_from_work_detail (JDict d) = Ok (joined (omap id credits)).
Proof.
  intros Hd Hcd Hl. unfold extract_authors_from_work_detail.
  assert (Td : truthy (JDict d) = true).
  { cbn [truthy]. apply negb_true_iff, Nat.eqb_neq, map_size_non_empty_iff.
    intros ->. by rewrite lookup_empty in Hd. }
  assert (Tcd : truthy (JDict cd) = true).
  { cbn [truthy]. apply negb_true_iff, Nat.eqb_neq, map_size_non_empty_iff.
    intros ->. by rewrite lookup_empty in Hcd. }
  rewrite Td. cbn [negb dict_get mbind res_bind]. rewrite Hd.
  cbn [from_option id]. rewrite Tcd. cbn [negb dict_get mbind res_bind].
  rewrite Hcd. cbn [from_option id].
  destruct l as [|a l]; [by injection Hl as <-|].
  cbn [truthy negb iter mbind res_bind].
  rewrite (credit_names_credits _ _ [] Hl). cbn [mbind res_bind app].
  destruct (omap id credits) as [|n names]; [done|].
  change (JStr <$> n :: names) with (JStr n :: (JStr <$> names)).
  change (JStr n :: (JStr <$> names)) with (JStr <$> n :: names).
  by rewrite join_texts.
Qed.

(** ** The DOI of a summary *)

Lemma find_doi_other ext_id rest :
  other_id ext_id = true → find_doi (ext_id :: rest) = find_doi rest.
Proof.
  unfold other_id. cbn [find_doi]. destruct (truthy ext_id); [|done].
  cbn [negb orb]. destruct ext_id as [| | | | |d]; try discriminate.
  cbn [dict_get mbind res_bind]. by intros ->%negb_true_iff.
Qed.

(** X9. The DOI is the value of the first external id of type doi, later
    ones are not looked at, even when that first one has no value; falsy
    ids and ids of another type are passed over, and without an id of type
    doi there is no DOI. *)
Theorem find_doi_first (pre post : list json) (d : gmap string json) :
  forallb other_id pre = true →
  find_doi pre = Ok JNull
  ∧ (d !! "external-id-type" = Some (JStr "doi") →
     find_doi (pre ++ JDict d :: post)
     = Ok (default JNull (d !! "external-id-value"))).
Proof.
  induction pre as [|x pre IH]; cbn [forallb app].
  - intros _. split; [done|]. intros Hd. cbn [find_doi truthy].
    assert (Td : truthy (JDict d) = true).
    { cbn [truthy]. apply negb_true_iff, Nat.eqb_neq, map_size_non_empty_iff.
      intros ->. by rewrite lookup_empty in Hd. }
    cbn [truthy] in Td. rewrite Td. cbn [dict_get mbind res_bind].
    by rewrite Hd.
  - intros [Hx Hpre]%andb_true_iff. rewrite !(find_doi_other _ _ Hx). by apply IH.
Qed.

(** ** What a turn emits *)

Lemma label_truthy (t : json) : is_label t = true → truthy t = true.
Proof.
  destruct t as [| | |s| |]; try discriminate. cbn [is_label truthy].
  intros Hs%bool_decide_eq_true_1. unfold labels in Hs. set_unfold in Hs.
  by destruct_or!; subst s.
Qed.

Lemma text_truthy (v : json) : is_text v = true → truthy v = true.
Proof. by destruct v. Qed.

Lemma truthy_text (v : json) :
  v = JNull ∨ is_text v = true → truthy v = true → is_text v = true.
Proof. by intros [-> | ?]. Qed.

(** The record lines 319-334 build. *)
Lemma read_summary_defaults work_summary s :
  read_summary work_summary = Ok (Some s) →
  is_label (type (s_publication s)) = true
  ∧ (truthy (s_doi s) = true → truthy (url (s_publication s)) = true)
  ∧ citations (s_publication s) = JInt 0
  ∧ abstract (s_publication s) = JStr ""
  ∧ publisher (s_publication s) = JStr ""
  ∧ volume (s_publication s) = JStr ""
  ∧ issue (s_publication s) = JStr ""
  ∧ pages (s_publication s) = JStr ""
  ∧ references_count (s_publication s) = JInt 0.
Proof.
  unfold read_summary. intros Hr. binds Hr.
  destruct (is_str "preprint" _); binds Hr; [discriminate|].
  injection Hr as <-. cbn. repeat split.
  - match goal with H : mapping_get _ _ _ = Ok _ |- _ =>
      exact (mapping_label _ _ _ orcid_labels H) end.
  - intros ->. unfold py_or.
    match goal with
    | |- truthy (if truthy ?u then _ else _) = true => by destruct (truthy u) eqn:Tu
    end.
Qed.

(** The two ways a turn gets its record: the merge with a CrossRef result
    that is no preprint, or the ORCID record with the authors of the work
    detail. *)
Lemma enrich_cases orcid_id s log p log' :
  enrich orcid_id s log = (Ok (Some p), log') →
  (∃ r, fetch_crossref_details (s_doi s) log
        = (Ok (Some r), Get (crossref_url (s_doi s)) :: log)
        ∧ truthy (s_doi s) = true
        ∧ p = merge r (s_publication s))
  ∨ (lookup_succeeds (s_doi s) log = false
     ∧ p = set_authors (authors p) (s_publication s)
     ∧ (authors p = authors (s_publication s) ∨ is_text (authors p) = true)).
Proof.
  assert (Hwd : ∀ log0 p1 l,
             work_detail_authors orcid_id (put_code s) (s_publication s) log0
             = (Ok p1, l) →
             p1 = set_authors (authors p1) (s_publication s)
             ∧ (authors p1 = authors (s_publication s)
                ∨ is_text (authors p1) = true)).
  { intros log0 p1 l. unfold work_detail_authors.
    destruct (s_publication s) as [] eqn:Hp.
    destruct (truthy (put_code s)); [|by intros [= <- <-]; split; [|left]].
    rewrite io_bind_run. unfold fetch_work_details at 1. rewrite io_bind_lift.
    destruct (extract_authors_from_work_detail _) as [a|] eqn:Ha; [|discriminate].
    rewrite io_ret_run. destruct (truthy a) eqn:Ta; intros [= <- <-].
    - split; [done|]. right. cbn. by eapply truthy_text, Ta; eapply extract_authors_text.
    - split; [done|]. by left. }
  unfold enrich, lookup_succeeds.
  destruct (truthy (s_doi s)) eqn:Hdoi.
  - rewrite io_bind_lift. destruct (slice60 (s_title s)); [|discriminate].
    rewrite io_bind_run.
    destruct (fetch_crossref_details_total (s_doi s) log)
      as (o & log1 & Hf & [-> | (r & -> & Hne)]); rewrite Hf.
    + cbn [nonempty mbind option_bind]. rewrite io_bind_run.
      destruct (work_detail_authors _ _ _ _) as [[p1|] l] eqn:Hw; [|discriminate].
      intros [= <- <-]. right. split; [done|]. by eapply Hwd.
    + cbn [nonempty mbind option_bind]. rewrite Hne.
      destruct (truthy (cr_get r "is_preprint" _)); [discriminate|].
      intros [= <- <-]. left. exists r. split; [|done].
      by apply fetch_crossref_details_inv in Hf as (_ & -> & _).
  - unfold fetch_crossref_details. rewrite Hdoi. cbn [negb]. rewrite io_bind_run.
    destruct (work_detail_authors _ _ _ _) as [[p1|] l] eqn:Hw; [|discriminate].
    rewrite io_bind_lift. destruct (slice60 (s_title s)); [|discriminate].
    intros [= <- <-]. right. split; [done|]. by eapply Hwd.
Qed.

(** A turn that emits went through both readers, and the ORCID title and
    year were truthy. *)
Lemma process_group_emits orcid_id group log p log' :
  process_group orcid_id group log = (Ok (Some p), log') →
  ∃ work_summary s,
    first_summary group = Ok (Some work_summary)
    ∧ read_summary work_summary = Ok (Some s)
    ∧ enrich orcid_id s log = (Ok (Some p), log')
    ∧ truthy (s_title s) = true ∧ truthy (s_year s) = true.
Proof.
  unfold process_group. rewrite io_bind_lift.
  destruct (first_summary group) as [[ws|]|]; try discriminate.
  rewrite io_bind_lift.
  destruct (read_summary ws) as [[s|]|] eqn:Hs; try discriminate.
  rewrite io_bind_run.
  destruct (enrich orcid_id s log) as [[[p0|]|] l] eqn:He; try discriminate.
  rewrite io_ret_run.
  destruct (truthy (s_title s)) eqn:Tt, (truthy (s_year s)) eqn:Ty;
    try discriminate.
  intros [= <- <-]. by exists ws, s.
Qed.

Lemma emitted_type orcid_id group log p log' :
  process_group orcid_id group log = (Ok (Some p), log') →
  is_label (type p) = true.
Proof.
  intros (ws & s & _ & Hs & He & _)%process_group_emits.
  apply read_summary_defaults in Hs as (Hty & _).
  apply enrich_cases in He as [(r & Hf & _ & ->) | (_ & -> & _)]; [|done].
  cbn [merge type]. unfold py_or, cr_get.
  apply fetch_crossref_details_inv in Hf as (_ & _ & data & _ & Hbody).
  apply crossref_body_inv in Hbody as (d & _ & Hres).
  apply crossref_result_keys in Hres as (_ & _ & _ & _ & (t & Ht & ->) & _).
  cbn [from_option id].
  pose proof (mapping_label _ _ _ crossref_labels Ht) as Hl.
  by rewrite (label_truthy _ Hl).
Qed.

Lemma read_summary_year work_summary s :
  read_summary work_summary = Ok (Some s) →
  truthy (s_year s) = true →
  ∃ n, int (s_year s) = Ok n ∧ year (s_publication s) = JInt n.
Proof.
  unfold read_summary. intros Hr. binds Hr.
  destruct (is_str "preprint" _); binds Hr; [discriminate|].
  injection Hr as <-. cbn. intros Ty.
  match goal with H : (if truthy ?y then _ else _) = Ok _ |- _ =>
    rewrite Ty in H; destruct (int y) as [n|]; [|discriminate];
    injection H as <-
  end.
  by exists n.
Qed.

Lemma emitted_title_year orcid_id group log p log' :
  process_group orcid_id group log = (Ok (Some p), log') →
  truthy (title p) = true ∧ year p ≠ JNull.
Proof.
  intros (ws & s & _ & Hs & He & Tt & Ty)%process_group_emits.
  pose proof (read_summary_year _ _ Hs Ty) as (n & _ & Hy).
  apply read_summary_publication in Hs as (_ & Hti & _).
  apply enrich_cases in He as [(r & _ & _ & ->) | (_ & -> & _)].
  - cbn [merge title year]. unfold py_or. split.
    + destruct (truthy (cr_get r "title" JNull)) eqn:Tc; [done|]. by rewrite Hti.
    + destruct (truthy (cr_get r "year" JNull)) eqn:Tc; [|by rewrite Hy].
      intros Hn. by rewrite Hn in Tc.
  - cbn [set_authors title year]. by rewrite Hti, Hy.
Qed.

Lemma emitted_doi_url orcid_id group log p log' :
  process_group orcid_id group log = (Ok (Some p), log') →
  truthy (doi p) = true → truthy (url p) = true.
Proof.
  intros (ws & s & _ & Hs & He & _)%process_group_emits.
  pose proof (read_summary_defaults _ _ Hs) as (_ & Hurl & _).
  apply read_summary_publication in Hs as (_ & _ & Hdoi & _).
  apply enrich_cases in He as [(r & _ & Td & ->) | (_ & -> & _)].
  - intros _. cbn [merge url]. unfold py_or.
    destruct (truthy (cr_get r "url" JNull)) eqn:Tu; [done|]. by apply Hurl.
  - cbn [set_authors doi url]. rewrite Hdoi. apply Hurl.
Qed.

Lemma emitted_authors orcid_id group log p log' :
  process_group orcid_id group log = (Ok (Some p), log') →
  is_text (authors p) = true.
Proof.
  intros (ws & s & _ & Hs & He & _)%process_group_emits.
  apply read_summary_publication in Hs as (Ha & _).
  apply enrich_cases in He as [(r & Hf & _ & ->) | (_ & _ & [-> | Ht])];
    [|by rewrite Ha|done].
  cbn [merge authors]. unfold py_or, cr_get.
  destruct (r !! "authors") as [v|] eqn:Hv; cbn [from_option id];
    [|by rewrite Ha].
  destruct (truthy v) eqn:Tv; [|by rewrite Ha].
  by eapply truthy_text, Tv; eapply result_authors_text.
Qed.

(** The loop keeps what holds of every record it appends. *)
Lemma parse_groups_Forall (P : publication → Prop) orcid_id groups pubs log out log' :
  (∀ group log0 p log1,
     process_group orcid_id group log0 = (Ok (Some p), log1) → P p) →
  Forall P pubs →
  parse_groups orcid_id groups pubs log = (Ok out, log') →
  Forall P out.
Proof.
  intros HP. revert pubs log.
  induction groups as [|g groups IH]; intros pubs log Hpubs.
  - by intros [= <- <-].
  - cbn [parse_groups]. rewrite io_bind_run.
    destruct (process_group orcid_id g log) as [[[p|]|] log1] eqn:Hg;
      [| |discriminate].
    + apply IH. apply Forall_app. split; [done|].
      apply Forall_singleton. by eapply HP.
    + by apply IH.
Qed.

Lemma parse_orcid_works_Forall (P : publication → Prop) data orcid_id log out log' :
  (∀ group log0 p log1,
     process_group orcid_id group log0 = (Ok (Some p), log1) → P p) →
  parse_orcid_works data orcid_id log = (Ok out, log') →
  Forall P out.
Proof.
  intros HP. unfold parse_orcid_works.
  destruct (negb (truthy data)); [by intros [= <- <-]|].
  rewrite io_bind_lift. destruct (contains data "group") as [[]|]; [| |discriminate];
    cbn [negb]; [|by intros [= <- <-]].
  rewrite io_bind_lift. destruct (item data "group") as [groups|]; [|discriminate].
  rewrite io_bind_lift. destruct (len groups); [|discriminate].
  rewrite io_bind_lift. destruct (iter groups) as [l|]; [|discriminate].
  by apply parse_groups_Forall.
Qed.

(** ** What parse_orcid_works returns *)

(** X10. Every record parse_orcid_works returns has one of the six type
    labels. *)
Theorem output_types (data : json) (orcid_id : string) (log log' : list event)
    (out : list publication) :
  parse_orcid_works data orcid_id log = (Ok out, log') →
  Forall (λ p, is_label (type p) = true) out.
Proof. apply parse_orcid_works_Forall. intros. by eapply emitted_type. Qed.

(** X11. Every record parse_orcid_works returns has a truthy title and a
    year that is not [None]. *)
Theorem output_title_year (data : json) (orcid_id : string) (log log' : list event)
    (out : list publication) :
  parse_orcid_works data orcid_id log = (Ok out, log') →
  Forall (λ p, truthy (title p) = true ∧ year p ≠ JNull) out.
Proof. apply parse_orcid_works_Forall. intros. by eapply emitted_title_year. Qed.

(** X12. Every record parse_orcid_works returns that has a DOI has a URL. *)
Theorem output_doi_url (data : json) (orcid_id : string) (log log' : list event)
    (out : list publication) :
  parse_orcid_works data orcid_id log = (Ok out, log') →
  Forall (λ p, truthy (doi p) = true → truthy (url p) = true) out.
Proof. apply parse_orcid_works_Forall. intros. by eapply emitted_doi_url. Qed.

(** X13. The authors of every record parse_orcid_works returns are a
    non-empty string: the sentinel, or joined names. *)
Theorem output_authors (data : json) (orcid_id : string) (log log' : list event)
    (out : list publication) :
  parse_orcid_works data orcid_id log = (Ok out, log') →
  Forall (λ p, is_text (authors p) = true) out.
Proof. apply parse_orcid_works_Forall. intros. by eapply emitted_authors. Qed.

(** ** With and without CrossRef data *)

Lemma process_group_summary orcid_id group work_summary s log p log' :
  first_summary group = Ok (Some work_summary) →
  read_summary work_summary = Ok (Some s) →
  process_group orcid_id group log = (Ok (Some p), log') →
  enrich orcid_id s log = (Ok (Some p), log').
Proof.
  intros Hg Hs (ws' & s' & Hg' & Hs' & He & _)%process_group_emits.
  rewrite Hg in Hg'. injection Hg' as <-. rewrite Hs in Hs'. by injection Hs' as <-.
Qed.

(** X14. When the CrossRef lookup gives no result (no DOI, a failed
    request, a body that cannot be read), the record that is kept is the
    ORCID one in every field but authors: title, journal, year, doi, url
    and type as read from the summary, no citations, no references, and
    empty abstract, publisher, volume, issue and pages. *)
Theorem no_crossref_keeps_orcid (orcid_id : string) (group work_summary : json)
    (s : summary) (p : publication) (log log' : list event) :
  first_summary group = Ok (Some work_summary) →
  read_summary work_summary = Ok (Some s) →
  process_group orcid_id group log = (Ok (Some p), log') →
  lookup_succeeds (s_doi s) log = false →
  p = set_authors (authors p) (s_publication s)
  ∧ title p = s_title s ∧ doi p = s_doi s
  ∧ citations p = JInt 0 ∧ references_count p = JInt 0
  ∧ abstract p = JStr "" ∧ publisher p = JStr "" ∧ volume p = JStr ""
  ∧ issue p = JStr "" ∧ pages p = JStr "".
Proof.
  intros Hg Hs Hp Hl.
  pose proof (process_group_summary _ _ _ _ _ _ _ Hg Hs Hp) as He.
  apply enrich_cases in He as [(r & Hf & _)|(_ & Heq & _)].
  { unfold lookup_succeeds in Hl. by rewrite Hf in Hl. }
  pose proof (read_summary_defaults _ _ Hs)
    as (_ & _ & Hc & Hab & Hpu & Hvo & Hi & Hpa & Hrc).
  apply read_summary_publication in Hs as (_ & Hti & Hdoi & _).
  split; [done|]. rewrite Heq. cbn [set_authors title doi citations
    references_count abstract publisher volume issue pages].
  by rewrite Hti, Hdoi, Hc, Hab, Hpu, Hvo, Hi, Hpa, Hrc.
Qed.

(** X15. When the CrossRef lookup gives a result, the record that is kept
    takes citations, abstract, publisher, volume, issue and pages straight
    from the message ('is-referenced-by-count' and 'page' for the first and
    the last), with 0 and the empty string for a missing key; and its
    references_count is the length of the message's 'reference', 0 when
    there is none. *)
Theorem crossref_fills_extras (orcid_id : string) (group work_summary : json)
    (s : summary) (p : publication) (log log' : list event)
    (message : gmap string json) :
  first_summary group = Ok (Some work_summary) →
  read_summary work_summary = Ok (Some s) →
  process_group orcid_id group log = (Ok (Some p), log') →
  crossref_message (s_doi s) log = Some message →
  lookup_succeeds (s_doi s) log = true →
  citations p = default (JInt 0) (message !! "is-referenced-by-count")
  ∧ abstract p = default (JStr "") (message !! "abstract")
  ∧ publisher p = default (JStr "") (message !! "publisher")
  ∧ volume p = default (JStr "") (message !! "volume")
  ∧ issue p = default (JStr "") (message !! "issue")
  ∧ pages p = default (JStr "") (message !! "page")
  ∧ match message !! "reference" with
    | Some v => ∃ n, len v = Ok n ∧ references_count p = JInt n
    | None => references_count p = JInt 0
    end.
Proof.
  intros Hg Hs Hp Hm Hl.
  pose proof (process_group_summary _ _ _ _ _ _ _ Hg Hs Hp) as He.
  apply enrich_cases in He as [(r & Hf & _ & ->)|(Hl' & _)]; [|congruence].
  apply lookup_result in Hl as (r' & d & Hf' & Hm' & Hres & _).
  rewrite Hf in Hf'. injection Hf' as <-.
  rewrite Hm in Hm'. injection Hm' as <-.
  apply crossref_result_keys in Hres
    as (_ & _ & _ & _ & _ & Kab & Kci & Kpu & Kvo & Kis & Kpa & Krc).
  cbn [merge citations abstract publisher volume issue pages references_count].
  unfold cr_get. rewrite Kab, Kci, Kpu, Kvo, Kis, Kpa.
  repeat split. destruct (message !! "reference") as [v|]; [|by rewrite Krc].
  destruct Krc as (n & Hn & ->). by exists n.
Qed.

(** ** Requests *)

Lemma work_detail_authors_events orcid_id put_code_ p log :
  ∃ evs, (work_detail_authors orcid_id put_code_ p log).2 = (evs ++ log)%list
         ∧ (evs = [] ∨ ∃ u, evs = [Get u]).
Proof.
  unfold work_detail_authors. destruct (truthy put_code_).
  - rewrite io_bind_run. unfold fetch_work_details at 1. rewrite io_bind_lift.
    exists [Get (work_url orcid_id put_code_)].
    split; [|right; eauto]. by destruct (extract_authors_from_work_detail _).
  - exists []. split; [done|by left].
Qed.

Lemma enrich_events orcid_id s log :
  ∃ evs, (enrich orcid_id s log).2 = (evs ++ log)%list ∧ turn_shape evs = true.
Proof.
  unfold enrich. destruct (truthy (s_doi s)) eqn:Hdoi.
  - rewrite io_bind_lift. destruct (slice60 (s_title s)); [|by exists []].
    rewrite io_bind_run. unfold fetch_crossref_details at 1.
    rewrite Hdoi. cbn [negb].
    set (log1 := Get (crossref_url (s_doi s)) :: log).
    destruct (nonempty _) as [cr|].
    + destruct (truthy (cr_get cr "is_preprint" _)).
      * by exists [Get (crossref_url (s_doi s))].
      * by exists [Sleep; Get (crossref_url (s_doi s))].
    + rewrite io_bind_run.
      destruct (work_detail_authors_events orcid_id (put_code s) (s_publication s) log1)
        as (evs & Hevs & Hshape).
      destruct (work_detail_authors _ _ _ log1) as [[p|e] l]; cbn [snd] in Hevs;
        subst l log1.
      * exists (Sleep :: evs ++ [Get (crossref_url (s_doi s))])%list.
        split; [|by destruct Hshape as [-> | [u ->]]].
        rewrite io_bind_run. cbn. by rewrite <- app_assoc.
      * exists (evs ++ [Get (crossref_url (s_doi s))])%list.
        split; [|by destruct Hshape as [-> | [u ->]]].
        cbn. by rewrite <- app_assoc.
  - rewrite io_bind_run.
    destruct (work_detail_authors_events orcid_id (put_code s) (s_publication s) log)
      as (evs & Hevs & Hshape).
    destruct (work_detail_authors _ _ _ log) as [[p|e] l]; cbn [snd] in Hevs;
      subst l; exists evs.
    + rewrite io_bind_lift. split; [|by destruct Hshape as [-> | [u ->]]].
      by destruct (slice60 (s_title s)).
    + split; [done|]. by destruct Hshape as [-> | [u ->]].
Qed.

Lemma process_group_events orcid_id group log :
  ∃ evs, (process_group orcid_id group log).2 = (evs ++ log)%list
         ∧ turn_shape evs = true.
Proof.
  unfold process_group. rewrite io_bind_lift.
  destruct (first_summary group) as [[ws|]|]; try by exists [].
  rewrite io_bind_lift.
  destruct (read_summary ws) as [[s|]|]; try by exists [].
  rewrite io_bind_run.
  destruct (enrich_events orcid_id s log) as (evs & Hevs & Hshape).
  destruct (enrich orcid_id s log) as [[[p|]|e] l]; cbn [snd] in Hevs; subst l;
    by exists evs.
Qed.

(** X16. One turn of the loop, however it ends, adds to the log nothing,
    one request, two requests, or one or two requests followed by the
    pause: never more than two requests, never a second pause, never a
    write. *)
Theorem turn_events (orcid_id : string) (group : json) (log : list event) :
  ∃ evs, (process_group orcid_id group log).2 = (evs ++ log)%list
         ∧ turn_shape evs = true.
Proof. apply process_group_events. Qed.

Lemma turn_shape_bounds evs :
  turn_shape evs = true → (requests evs ≤ 2)%nat ∧ forallb (negb ∘ is_write) evs = true.
Proof.
  destruct evs as [|[] [|[] [|[] [|]]]]; try discriminate; cbn; intros _; split;
    (lia || done).
Qed.

Lemma requests_app evs1 evs2 :
  requests (evs1 ++ evs2) = (requests evs1 + requests evs2)%nat.
Proof. unfold requests. by rewrite List.filter_app, List.length_app. Qed.

Lemma parse_groups_events orcid_id groups pubs log :
  ∃ evs, (parse_groups orcid_id groups pubs log).2 = (evs ++ log)%list
         ∧ (requests evs ≤ 2 * List.length groups)%nat
         ∧ forallb (negb ∘ is_write) evs = true.
Proof.
  revert pubs log. induction groups as [|g groups IH]; intros pubs log.
  - exists []. cbn. split; [done|]. split; [lia|done].
  - cbn [parse_groups]. rewrite io_bind_run.
    destruct (process_group_events orcid_id g log) as (evs & Hevs & Hshape).
    apply turn_shape_bounds in Hshape as [Hreq Hw].
    destruct (process_group orcid_id g log) as [[p|e] log1]; cbn [snd] in Hevs;
      subst log1.
    + destruct (IH (match p with Some p0 => pubs ++ [p0] | None => pubs end)%list
                   (evs ++ log)%list) as (evs' & -> & Hreq' & Hw').
      exists (evs' ++ evs)%list. split; [by rewrite app_assoc|].
      rewrite requests_app, forallb_app, Hw, Hw'. cbn [List.length]. split; [lia|done].
    + exists evs. split; [done|]. cbn [List.length]. split; [lia|done].
Qed.

(** X17. A whole parse issues at most two requests per group and never
    writes, whether it returns or raises; on [None], and on data without
    'group', it does nothing at all. *)
Theorem parse_orcid_works_requests (data : json) (orcid_id : string)
    (log : list event) :
  ∃ evs, (parse_orcid_works data orcid_id log).2 = (evs ++ log)%list
         ∧ forallb (negb ∘ is_write) evs = true
         ∧ match item data "group" ≫= iter with
           | Ok groups => (requests evs ≤ 2 * List.length groups)%nat
           | Raise _ => evs = []
           end.
Proof.
  unfold parse_orcid_works.
  assert (Hnone : ∃ evs, log = (evs ++ log)%list
                         ∧ forallb (negb ∘ is_write) evs = true
                         ∧ match item data "group" ≫= iter with
                           | Ok groups => (requests evs ≤ 2 * List.length groups)%nat
                           | Raise _ => evs = []
                           end).
  { exists []. split; [done|]. split; [done|].
    destruct (item data "group" ≫= iter); [cbn; lia|done]. }
  destruct (negb (truthy data)); [done|].
  rewrite io_bind_lift. destruct (contains data "group") as [[]|]; [|done..].
  cbn [negb]. rewrite io_bind_lift.
  destruct (item data "group") as [groups|]; [|done]. cbn [mbind res_bind] in *.
  rewrite io_bind_lift. destruct (len groups); [|by destruct (iter groups)].
  rewrite io_bind_lift. destruct (iter groups) as [l|]; [|done].
  destruct (parse_groups_events orcid_id l [] log) as (evs & Hevs & Hreq & Hw).
  by exists evs.
Qed.

(** ** The loop *)

(** X18. Parsing a list of groups is parsing a first part and then the
    rest, with the records and the log of the first part; an exception in
    the first part ends the parse. *)
Theorem parse_groups_app (orcid_id : string) (l1 l2 : list json)
    (pubs : list publication) (log : list event) :
  parse_groups orcid_id (l1 ++ l2) pubs log
  = match parse_groups orcid_id l1 pubs log with
    | (Ok pubs1, log1) => parse_groups orcid_id l2 pubs1 log1
    | (Raise e, log1) => (Raise e, log1)
    end.
Proof.
  revert pubs log. induction l1 as [|g l1 IH]; intros pubs log; [done|].
  cbn [app parse_groups]. rewrite !io_bind_run.
  destruct (process_group orcid_id g log) as [[p|e] log1]; [|done]. apply IH.
Qed.

(** The records the loop was started with play no part in it: they are
    put in front of what the groups give. *)
Lemma parse_groups_from (orcid_id : string) (groups : list json)
    (pubs : list publication) (log : list event) :
  parse_groups orcid_id groups pubs log
  = match parse_groups orcid_id groups [] log with
    | (Ok new, log') => (Ok (pubs ++ new)%list, log')
    | (Raise e, log') => (Raise e, log')
    end.
Proof.
  revert pubs log. induction groups as [|g groups IH]; intros pubs log.
  - cbn [parse_groups]. by rewrite !io_ret_run, app_nil_r.
  - cbn [parse_groups]. rewrite !io_bind_run.
    destruct (process_group orcid_id g log) as [[[p|]|e] log1]; [| |done].
    + rewrite (IH (pubs ++ [p])%list), (IH ([] ++ [p])%list).
      destruct (parse_groups orcid_id groups [] log1) as [[new|e] log']; [|done].
      by rewrite <- app_assoc.
    + apply IH.
Qed.

Lemma parse_groups_length (orcid_id : string) (groups : list json)
    (new : list publication) (log log' : list event) :
  parse_groups orcid_id groups [] log = (Ok new, log') →
  (List.length new ≤ List.length groups)%nat.
Proof.
  revert new log. induction groups as [|g groups IH]; intros new log.
  - by intros [= <- <-].
  - cbn [parse_groups]. rewrite io_bind_run.
    destruct (process_group orcid_id g log) as [[[p|]|e] log1]; [| |discriminate].
    + rewrite parse_groups_from.
      destruct (parse_groups orcid_id groups [] log1) as [[new1|e] log1'] eqn:Hrest;
        [|discriminate].
      intros [= <- <-]. apply IH in Hrest.
      cbn [app List.length]. lia.
    + intros Hrest%IH. cbn [List.length]. lia.
Qed.

(** X19. The loop only appends, in group order: however the groups are
    cut in two, what it returns is the list it was given, then the
    records of the first part, then the records of the second part, each
    part giving what the loop gives for it on its own (the second after
    the requests of the first) and at most one record per group. *)
Theorem parse_groups_appends (orcid_id : string) (l1 l2 : list json)
    (pubs out : list publication) (log log' : list event) :
  parse_groups orcid_id (l1 ++ l2) pubs log = (Ok out, log') →
  ∃ new1 new2 log1,
    parse_groups orcid_id l1 [] log = (Ok new1, log1)
    ∧ parse_groups orcid_id l2 [] log1 = (Ok new2, log')
    ∧ out = (pubs ++ new1 ++ new2)%list
    ∧ (List.length new1 ≤ List.length l1)%nat
    ∧ (List.length new2 ≤ List.length l2)%nat.
Proof.
  rewrite parse_groups_from.
  destruct (parse_groups orcid_id (l1 ++ l2) [] log) as [[new|e] l] eqn:Hrun;
    [|discriminate].
  intros [= <- <-]. revert Hrun.
  assert (Happ : parse_groups orcid_id (l1 ++ l2) [] log
                 = match parse_groups orcid_id l1 [] log with
                   | (Ok pubs1, log1) => parse_groups orcid_id l2 pubs1 log1
                   | (Raise e, log1) => (Raise e, log1)
                   end).
  { generalize (@nil publication). revert log.
    induction l1 as [|g l1 IH]; intros log acc; [done|].
    cbn [app parse_groups]. rewrite !io_bind_run.
    destruct (process_group orcid_id g log) as [[p|e] log1]; [|done]. apply IH. }
  rewrite Happ.
  destruct (parse_groups orcid_id l1 [] log) as [[new1|e] log1] eqn:H1; [|discriminate].
  rewrite parse_groups_from.
  destruct (parse_groups orcid_id l2 [] log1) as [[new2|e] log2] eqn:H2; [|discriminate].
  intros [= <- <-]. exists new1, new2, log1.
  split; [done|]. split; [done|]. split; [done|].
  split; by eapply parse_groups_length.
Qed.

(** X20. An exception in one turn ends the whole parse with that
    exception: the records collected so far are lost, and the groups after
    it are not looked at (nothing is requested for them). *)
Theorem parse_groups_aborts (orcid_id : string) (l1 l2 : list json) (group : json)
    (pubs pubs1 : list publication) (log log1 log2 : list event) (e : exn) :
  parse_groups orcid_id l1 pubs log = (Ok pubs1, log1) →
  process_group orcid_id group log1 = (Raise e, log2) →
  parse_groups orcid_id (l1 ++ group :: l2) pubs log = (Raise e, log2).
Proof.
  revert pubs log. induction l1 as [|g l1 IH]; intros pubs log.
  - intros [= <- <-] Hg. cbn [app parse_groups]. by rewrite io_bind_run, Hg.
  - cbn [app parse_groups]. rewrite !io_bind_run.
    destruct (process_group orcid_id g log) as [[p|e'] log0]; [|discriminate].
    apply IH.
Qed.

(** ** main, when something raises *)

(** X21. main raises when parsing raises, and then no write is attempted
    (the log is the one parsing left); and a works answer that is falsy
    (an empty object, say) is taken for a failed fetch: 1, without
    parsing. *)
Theorem main_raises (log : list event) :
  let data := default JNull (http_get log (works_url ORCID_ID)) in
  let log1 := Get (works_url ORCID_ID) :: log in
  (truthy data = false → main log = (Ok 1, log1))
  ∧ (∀ e log2, truthy data = true →
       parse_orcid_works data ORCID_ID log1 = (Raise e, log2) →
       main log = (Raise e, log2)).
Proof.
  intros data log1. rewrite main_run. fold data log1. cbn zeta.
  split; [by intros ->|]. by intros e log2 -> ->.
Qed.

(** X25. When the write of the records fails, main returns no exit code:
    what the failing step raised leaves main as it is, and the write was
    the last thing attempted. *)
Theorem main_write_fails (log log2 : list event) (p : publication)
    (ps : list publication) :
  let data := default JNull (http_get log (works_url ORCID_ID)) in
  let log1 := Get (works_url ORCID_ID) :: log in
  truthy data = true →
  parse_orcid_works data ORCID_ID log1 = (Ok (p :: ps), log2) →
  file_write log2 OUTPUT_FILE = false →
  main log
  = (Raise (write_error log2 OUTPUT_FILE),
     Write OUTPUT_FILE {| last_updated := utcnow log2;
                          count := Z.of_nat (List.length (p :: ps));
                          publications := p :: ps |} :: log2).
Proof.
  intros data log1 Hd Hp Hw. rewrite main_run. fold data log1. cbn zeta.
  by rewrite Hd, Hp, finish_run, Hw.
Qed.

End More.

(** ** The Google Scholar path *)

Section ScholarProperties.
Context {B : Builtins} {S : Scholarly}.

Ltac binds H := repeat (apply res_bind_Ok in H as (? & ? & H)).

Lemma scholar_read_publication pub p :
  Scholar.read_publication pub = Ok p →
  Scholar.doi p = JNull ∧ Scholar.type p = JStr "Research Article"
  ∧ (truthy (Scholar.year p) = true →
     ∃ n, Scholar.year p = JInt n ∧ n ≠ 0).
Proof.
  unfold Scholar.read_publication. intros Hr. binds Hr. injection Hr as <-.
  cbn. repeat split.
  match goal with
  | |- context [if truthy ?y0 then _ else _] => destruct (truthy y0) eqn:Ty
  end; [|congruence].
  match goal with |- context [int ?y0] => destruct (int y0) as [n|] end;
    [|discriminate].
  cbn [truthy]. intros Hn. exists n. split; [done|].
  intros ->. discriminate.
Qed.

Lemma scholar_read_publications (P : Scholar.publication → Prop) pubs acc out :
  (∀ pub p, Scholar.read_publication pub = Ok p →
            truthy (Scholar.title p) = true → truthy (Scholar.year p) = true →
            P p) →
  Forall P acc →
  Scholar.read_publications pubs acc = Ok out → Forall P out.
Proof.
  intros HP. revert acc. induction pubs as [|pub pubs IH]; intros acc Hacc.
  - by intros [= <-].
  - cbn [Scholar.read_publications]. intros Hr.
    apply res_bind_Ok in Hr as (p & Hp & Hr). apply IH in Hr; [done|].
    destruct (truthy (Scholar.title p)) eqn:Tt; [|done].
    destruct (truthy (Scholar.year p)) eqn:Ty; [|done].
    apply Forall_app. split; [done|]. apply Forall_singleton. by eapply HP.
Qed.

(** X22. Every record the Google Scholar path returns has a truthy title
    and a year that is a non-zero integer (a year that cannot be converted
    is no year); its doi is [None] and its type Research Article. *)
Theorem scholar_output (scholar_id : string) (out : list Scholar.publication) :
  Scholar.fetch_google_scholar_publications scholar_id = Some out →
  Forall (λ p, truthy (Scholar.title p) = true
               ∧ (∃ n, Scholar.year p = JInt n ∧ n ≠ 0)
               ∧ Scholar.doi p = JNull
               ∧ Scholar.type p = JStr "Research Article") out.
Proof.
  unfold Scholar.fetch_google_scholar_publications.
  destruct (fill_author scholar_id) as [author|]; [|discriminate].
  cbn [mbind option_bind].
  destruct (Scholar.scholar_body author) as [l|] eqn:Hb; [|discriminate].
  intros [= <-]. unfold Scholar.scholar_body in Hb. binds Hb.
  eapply scholar_read_publications; [|done|exact Hb].
  intros pub p (Hd & Ht & Hy)%scholar_read_publication Tt Ty.
  split; [done|]. split; [by apply Hy|]. by split.
Qed.

(** X23. An author without the key 'publications' gives [None] (the
    fallback to ORCID), not the empty list: the count defaults to [], the
    loop subscripts the author, and the KeyError is swallowed.  So does an
    author that is no dictionary, and a failing library call. *)
Theorem scholar_no_publications (scholar_id : string) :
  (fill_author scholar_id = None →
   Scholar.fetch_google_scholar_publications scholar_id = None)
  ∧ (∀ d : gmap string json,
       fill_author scholar_id = Some (JDict d) →
       d !! "publications" = None →
       Scholar.fetch_google_scholar_publications scholar_id = None)
  ∧ (∀ author,
       fill_author scholar_id = Some author →
       (∀ d, author ≠ JDict d) →
       Scholar.fetch_google_scholar_publications scholar_id = None).
Proof.
  unfold Scholar.fetch_google_scholar_publications, Scholar.scholar_body.
  split; [by intros ->|]. split.
  - intros d -> Hd. cbn [mbind option_bind dict_get item res_bind len].
    by rewrite Hd.
  - intros author -> Ha. cbn [mbind option_bind].
    destruct author as [| | | | |d]; try done. by destruct (Ha d).
Qed.

(** X24. An entry whose year is truthy but cannot be converted is passed
    over, and the loop goes on: the bare [except] turns the year into
    [None], no exception leaves the turn. *)
Theorem scholar_bad_year (pub bib y : json) (e : exn) (p : Scholar.publication)
    (rest : list json) (acc : list Scholar.publication) :
  dict_get pub "bib" (JDict ∅) = Ok bib →
  dict_get bib "pub_year" JNull = Ok y →
  truthy y = true →
  int y = Raise e →
  Scholar.read_publication pub = Ok p →
  Scholar.year p = JNull
  ∧ Scholar.read_publications (pub :: rest) acc
    = Scholar.read_publications rest acc.
Proof.
  intros Hb Hy Ty Hi Hp.
  assert (Hyear : Scholar.year p = JNull).
  { unfold Scholar.read_publication in Hp. rewrite Hb in Hp.
    cbn [mbind res_bind] in Hp.
    apply res_bind_Ok in Hp as (a0 & _ & Hp).
    apply res_bind_Ok in Hp as (a & _ & Hp).
    rewrite Hy in Hp. cbn [mbind res_bind] in Hp. rewrite Ty, Hi in Hp.
    binds Hp. by injection Hp as <-. }
  split; [done|]. cbn [Scholar.read_publications]. rewrite Hp.
  cbn [mbind res_bind]. rewrite Hyear. cbn [truthy]. by rewrite andb_false_r.
Qed.

End ScholarProperties.

(** * Further properties, on concrete runs *)

Lemma fetch_crossref_details_none_witness :
  fetch_crossref_details (W := authored_world) JNull [] = (Ok None, []).
Proof.
  apply (fetch_crossref_details_none (W := authored_world) JNull []). reflexivity.
Defined.

Lemma crossref_result_shape_witness :
  lookup_succeeds (W := posted_world) (JStr "10.1/x") [] = true
  ∧ ∃ t, result_field (W := posted_world) (JStr "10.1/x") [] "type" = Some (Some t)
         ∧ is_label t = true.
Proof.
  assert (Hl : lookup_succeeds (W := posted_world) (JStr "10.1/x") [] = true)
    by (vm_compute; reflexivity).
  split; [exact Hl|].
  exact (proj1 (crossref_result_shape (W := posted_world) _ _ Hl)).
Defined.

Lemma crossref_authors_people_witness :
  crossref_authors (JList three_authors) = Ok (JStr "A B, D").
Proof.
  apply (crossref_authors_people three_authors [("A", "B"); ("", "D"); ("C", "")]).
  vm_compute. reflexivity.
Defined.

Lemma crossref_authors_never_empty_witness :
  result_field (W := authored_world) (JStr "10.1/x") [] "authors"
  = Some (Some (JStr "A B, C D"))
  ∧ (JStr "A B, C D" = JNull ∨ is_text (JStr "A B, C D") = true).
Proof.
  assert (Hr : result_field (W := authored_world) (JStr "10.1/x") [] "authors"
               = Some (Some (JStr "A B, C D"))) by (vm_compute; reflexivity).
  split; [exact Hr|].
  exact (crossref_authors_never_empty (W := authored_world) _ _ _ Hr).
Defined.

Lemma crossref_result_url_witness :
  result_field (W := bare_world) (JStr "10.1/x") [] "doi"
  = Some (Some (JStr "10.1/X"))
  ∧ result_field (W := bare_world) (JStr "10.1/x") [] "url"
    = Some (Some (JStr "https://doi.org/10.1/X")).
Proof.
  destruct (crossref_result_url (W := bare_world) (JStr "10.1/x") []
              (list_to_map bare_message))
    as (Hdoi & u & Hu & _ & Hd & _); [vm_compute; reflexivity..|].
  split; [exact Hdoi|]. rewrite Hu. by rewrite (Hd eq_refl eq_refl).
Defined.

Lemma extract_authors_never_empty_witness :
  JStr "Jane Doe, Bo" = JNull ∨ is_text (JStr "Jane Doe, Bo") = true.
Proof.
  apply (extract_authors_never_empty (JDict (detail_of four_contributors))).
  vm_compute. reflexivity.
Defined.

Lemma extract_authors_credits_witness :
  extract_authors_from_work_detail (JDict (detail_of four_contributors))
  = Ok (JStr "Jane Doe, Bo").
Proof.
  apply (extract_authors_credits (detail_of four_contributors)
           (contributors_of four_contributors) four_contributors
           [Some "Jane Doe"; None; None; Some "Bo"]);
    vm_compute; reflexivity.
Defined.

Lemma find_doi_first_witness :
  find_doi (ids_before ++ JDict valueless_doi :: ids_after) = Ok JNull.
Proof.
  apply (find_doi_first ids_before ids_after valueless_doi); vm_compute; reflexivity.
Defined.

Lemma output_types_witness :
  parse_orcid_works (W := authored_world) (obj [("group", JList [article_group])])
    ORCID_ID []
  = (Ok [authored_record], [Sleep; Get crossref_x])
  ∧ Forall (λ p, is_label (type p) = true) [authored_record].
Proof.
  assert (Hrun : parse_orcid_works (W := authored_world)
                   (obj [("group", JList [article_group])]) ORCID_ID []
                 = (Ok [authored_record], [Sleep; Get crossref_x]))
    by (vm_compute; reflexivity).
  split; [exact Hrun|].
  exact (output_types (W := authored_world) _ _ _ _ _ Hrun).
Defined.

Lemma output_title_year_witness :
  parse_orcid_works (W := authored_world) (obj [("group", JList [article_group])])
    ORCID_ID []
  = (Ok [authored_record], [Sleep; Get crossref_x])
  ∧ Forall (λ p, truthy (title p) = true ∧ year p ≠ JNull) [authored_record].
Proof.
  assert (Hrun : parse_orcid_works (W := authored_world)
                   (obj [("group", JList [article_group])]) ORCID_ID []
                 = (Ok [authored_record], [Sleep; Get crossref_x]))
    by (vm_compute; reflexivity).
  split; [exact Hrun|].
  exact (output_title_year (W := authored_world) _ _ _ _ _ Hrun).
Defined.

Lemma output_doi_url_witness :
  parse_orcid_works (W := authored_world) (obj [("group", JList [article_group])])
    ORCID_ID []
  = (Ok [authored_record], [Sleep; Get crossref_x])
  ∧ Forall (λ p, truthy (doi p) = true → truthy (url p) = true) [authored_record].
Proof.
  assert (Hrun : parse_orcid_works (W := authored_world)
                   (obj [("group", JList [article_group])]) ORCID_ID []
                 = (Ok [authored_record], [Sleep; Get crossref_x]))
    by (vm_compute; reflexivity).
  split; [exact Hrun|].
  exact (output_doi_url (W := authored_world) _ _ _ _ _ Hrun).
Defined.

Lemma output_authors_witness :
  parse_orcid_works (W := authored_world) (obj [("group", JList [article_group])])
    ORCID_ID []
  = (Ok [authored_record], [Sleep; Get crossref_x])
  ∧ Forall (λ p, is_text (authors p) = true) [authored_record].
Proof.
  assert (Hrun : parse_orcid_works (W := authored_world)
                   (obj [("group", JList [article_group])]) ORCID_ID []
                 = (Ok [authored_record], [Sleep; Get crossref_x]))
    by (vm_compute; reflexivity).
  split; [exact Hrun|].
  exact (output_authors (W := authored_world) _ _ _ _ _ Hrun).
Defined.

Lemma no_crossref_keeps_orcid_witness :
  process_group (W := serving []) ORCID_ID plain_group []
  = (Ok (Some plain_record), [Get work_7])
  ∧ plain_record = set_authors (authors plain_record) (s_publication plain_summary).
Proof.
  assert (Hrun : process_group (W := serving []) ORCID_ID plain_group []
                 = (Ok (Some plain_record), [Get work_7]))
    by (vm_compute; reflexivity).
  split; [exact Hrun|].
  refine (proj1 (no_crossref_keeps_orcid (W := serving []) ORCID_ID plain_group
                   (summary_of [year_2020]) plain_summary plain_record []
                   [Get work_7] _ _ Hrun _)); vm_compute; reflexivity.
Defined.

Lemma crossref_fills_extras_witness :
  process_group (W := authored_world) ORCID_ID article_group []
  = (Ok (Some authored_record), [Sleep; Get crossref_x])
  ∧ citations authored_record = JInt 5.
Proof.
  assert (Hrun : process_group (W := authored_world) ORCID_ID article_group []
                 = (Ok (Some authored_record), [Sleep; Get crossref_x]))
    by (vm_compute; reflexivity).
  split; [exact Hrun|].
  refine (proj1 (crossref_fills_extras (W := authored_world) ORCID_ID article_group
                   (summary_of [year_2020; doi_x]) article_summary authored_record
                   [] [Sleep; Get crossref_x] (list_to_map authored_message)
                   _ _ Hrun _ _)); vm_compute; reflexivity.
Defined.

Lemma parse_groups_appends_witness :
  parse_groups (W := authored_world) ORCID_ID
    ([plain_group] ++ [preprint_group; article_group]) [] []
  = (Ok [plain_record; authored_record], [Sleep; Get crossref_x; Get work_7])
  ∧ ∃ new1 new2 log1,
      parse_groups (W := authored_world) ORCID_ID [plain_group] [] []
      = (Ok new1, log1)
      ∧ parse_groups (W := authored_world) ORCID_ID
          [preprint_group; article_group] [] log1
        = (Ok new2, [Sleep; Get crossref_x; Get work_7])
      ∧ [plain_record; authored_record] = ([] ++ new1 ++ new2)%list
      ∧ (List.length new1 ≤ 1)%nat ∧ (List.length new2 ≤ 2)%nat.
Proof.
  assert (Hrun : parse_groups (W := authored_world) ORCID_ID
                   ([plain_group] ++ [preprint_group; article_group]) [] []
                 = (Ok [plain_record; authored_record],
                    [Sleep; Get crossref_x; Get work_7]))
    by (vm_compute; reflexivity).
  split; [exact Hrun|].
  exact (parse_groups_appends (W := authored_world) _ _ _ _ _ _ _ Hrun).
Defined.

Lemma parse_groups_aborts_witness :
  parse_groups (W := authored_world) ORCID_ID
    ([article_group] ++ undatable_group :: [article_group]) [] []
  = (Raise ValueError, [Sleep; Get crossref_x]).
Proof.
  apply (parse_groups_aborts (W := authored_world) ORCID_ID [article_group]
           [article_group] undatable_group [] [authored_record] []
           [Sleep; Get crossref_x]);
    vm_compute; reflexivity.
Defined.

Lemma main_raises_witness :
  main (W := empty_works_world) [] = (Ok 1, [Get (works_url ORCID_ID)]).
Proof.
  apply (main_raises (W := empty_works_world) []). vm_compute. reflexivity.
Defined.

Lemma main_write_fails_witness :
  main (W := read_only one_work_world) []
  = (Raise OSError,
     [Write OUTPUT_FILE {| last_updated := "2024-01-01T00:00:00"; count := 1;
                           publications := [plain_record] |};
      Get work_7; Get works]).
Proof.
  apply (main_write_fails (W := read_only one_work_world) [] [Get work_7; Get works]
           plain_record []); vm_compute; reflexivity.
Defined.

Lemma fetch_authors_from_crossref_text_witness :
  fetch_authors_from_crossref (W := authored_world) JNull [] = (Ok JNull, [])
  ∧ JStr "A B, C D"
    = default JNull (crossref_author_names (W := authored_world) (JStr "10.1/x") []).
Proof.
  destruct (fetch_authors_from_crossref_text (W := authored_world) JNull [])
    as [Hnone _].
  destruct (fetch_authors_from_crossref_text (W := authored_world) (JStr "10.1/x") [])
    as [_ Hsome].
  split; [apply Hnone; reflexivity|].
  apply (Hsome _ [Get crossref_x]). vm_compute. reflexivity.
Defined.

Lemma scholar_output_witness :
  Scholar.fetch_google_scholar_publications (S := scholarly_of (Some two_pubs_author))
    GOOGLE_SCHOLAR_ID
  = Some [scholar_record]
  ∧ Forall (λ p, truthy (Scholar.title p) = true
                 ∧ (∃ n, Scholar.year p = JInt n ∧ n ≠ 0)
                 ∧ Scholar.doi p = JNull
                 ∧ Scholar.type p = JStr "Research Article") [scholar_record].
Proof.
  assert (Hrun : Scholar.fetch_google_scholar_publications
                   (S := scholarly_of (Some two_pubs_author)) GOOGLE_SCHOLAR_ID
                 = Some [scholar_record]) by (vm_compute; reflexivity).
  split; [exact Hrun|].
  exact (scholar_output (S := scholarly_of (Some two_pubs_author)) _ _ Hrun).
Defined.

Lemma scholar_no_publications_witness :
  Scholar.fetch_google_scholar_publications (S := scholarly_of (Some (obj [])))
    GOOGLE_SCHOLAR_ID
  = None.
Proof.
  apply (proj1 (proj2 (scholar_no_publications (S := scholarly_of (Some (obj [])))
                         GOOGLE_SCHOLAR_ID)) ∅); reflexivity.
Defined.

Lemma scholar_bad_year_witness :
  Scholar.read_publications [scholar_pub (JStr "n.d."); scholar_pub (JStr "2019")] []
  = Scholar.read_publications [scholar_pub (JStr "2019")] [].
Proof.
  refine (proj2 (scholar_bad_year (scholar_pub (JStr "n.d.")) _ (JStr "n.d.")
                   ValueError _ [scholar_pub (JStr "2019")] [] _ _ _ _ _));
    vm_compute; reflexivity.
Defined.
